(** * RobOptim core: functions, solver life cycle and solver state

    A shallow embedding of the C++ sources

    - [include/roboptim/core/solver-state.hxx]  (SolverState)
    - [include/roboptim-core/solver.hxx]        (Solver, NumericLinearFunction)
    - [include/roboptim-core/linear-function.hh] (LinearFunction)
    - [src/optimization-fwd.hh]                 (design notes, tutorial)

    C++ calls are modelled with their outcome (a value, an exception that
    reaches the caller, or [std::unexpected ()]), and every member function
    carries the dynamic exception specification it is declared with.
    [std::map] is an association list kept in key order, [boost::variant] a
    value tagged with the bounded type it holds, [std::ostream] the sequence
    of items inserted into it. *)

From Stdlib Require Import String Ascii ZArith Lia Bool PeanoNat.
From Stdlib Require Import Sorted OrderedTypeEx Eqdep_dec List.
Import ListNotations.

Set Implicit Arguments.

(* ================================================================== *)
(** ** Part I: the model *)
(* ================================================================== *)

(** *** C++ calls, exceptions and exception specifications *)

Module Cxx.

(** The exceptions the sources raise: [std::out_of_range] (with its message)
    and [boost::bad_get], raised by [boost::get<T>] on a reference to a
    variant that holds another type. *)
Inductive exception : Type :=
| std_out_of_range (what : string)
| boost_bad_get.

(** How a call ends: it returns, an exception leaves it and reaches the
    caller, or an exception that its exception specification does not admit
    tried to leave it, in which case [std::unexpected ()] is called (by
    default [std::terminate ()]) and nothing reaches the caller. *)
Inductive outcome (A : Type) : Type :=
| Returned (a : A)
| Thrown (e : exception)
| Unexpected (e : exception).

Arguments Returned {A} a.
Arguments Thrown {A} e.
Arguments Unexpected {A} e.

(** [f (...) throw (E1, ..., Ek)]: an exception leaving the body is passed on
    when one of the listed types admits it and ends in [std::unexpected ()]
    otherwise. *)
Definition exception_specification {A : Type}
  (admits : exception -> bool) (body : outcome A) : outcome A :=
  match body with
  | Returned a => Returned a
  | Thrown e => if admits e then Thrown e else Unexpected e
  | Unexpected e => Unexpected e
  end.

(** [throw ()] *)
Definition throw_nothing : exception -> bool := fun _ => false.

(** [throw (std::out_of_range)] *)
Definition throw_std_out_of_range (e : exception) : bool :=
  match e with
  | std_out_of_range _ => true
  | boost_bad_get => false
  end.

(** [std::ostream]: the items inserted so far, oldest first. [Put x] is
    [o << x] for an object [x] printed by an [operator<<] of its own;
    [Incindent], [Decindent] and [Iendl] are the manipulators of
    [roboptim/core/io.hh]. *)
Inductive item (P : Type) : Type :=
| Str (s : string)
| Incindent
| Decindent
| Iendl
| Put (x : P).

Arguments Str {P} s.
Arguments Incindent {P}.
Arguments Decindent {P}.
Arguments Iendl {P}.
Arguments Put {P} x.

Definition ostream (P : Type) : Type := list (item P).

Definition shl {P : Type} (o : ostream P) (i : item P) : ostream P := o ++ [i].

End Cxx.

Import Cxx.

Notation "o << i" := (Cxx.shl o i) (at level 50, left associativity).

(** *** Template parameters *)

(** [value_type] of the function hierarchy ([double] by default). Only the
    operations are given, no law is assumed of them. *)
Class Scalar : Type := {
  value_type : Type;
  zero : value_type;
  plus : value_type -> value_type -> value_type;
  times : value_type -> value_type -> value_type
}.

(** The bounded types of [StateParameter]'s [boost::variant], each with the
    type of the values it holds. The list of types itself is declared in
    [solver-state.hh]. *)
Class BoundedTypes : Type := {
  bounded_type : Type;
  bounded_type_eq_dec : forall a b : bounded_type, {a = b} + {a <> b};
  holds : bounded_type -> Type
}.

(** The problem type [P] of [SolverState<P>] and [Solver<F, C>]: all that the
    sources ask of it is [pb.function ().inputSize ()]. *)
Class ProblemType : Type := {
  problem_t : Type;
  function_t : Type;
  function : problem_t -> function_t;
  inputSize : function_t -> nat
}.

(** *** Vectors and matrices *)

Module Function.
Section Types.
Context {V : Scalar}.

Definition vector_t : Type := list value_type.
(** A matrix is the list of its rows. *)
Definition matrix_t : Type := list vector_t.
Definition gradient_t : Type := vector_t.
Definition jacobian_t : Type := matrix_t.
Definition hessian_t : Type := matrix_t.

(** [v.resize (n)]: a vector of another size is reallocated and its
    coefficients are whatever the memory holds ([garbage]). *)
Definition resize (garbage : nat -> value_type) (n : nat) (v : vector_t)
  : vector_t :=
  if Nat.eqb (length v) n then v else map garbage (seq 0 n).

(** [v.setZero ()] *)
Definition setZero (v : vector_t) : vector_t := map (fun _ => zero) v.

(** The [rows] x [cols] matrix of zeros. *)
Definition zero_matrix (rows cols : nat) : matrix_t :=
  repeat (repeat zero cols) rows.

Definition rows (a : matrix_t) : nat := length a.

Definition cols (a : matrix_t) : nat :=
  match a with
  | [] => 0
  | r :: _ => length r
  end.

End Types.
End Function.

(** *** [std::map<std::string, T>] *)

Module StdMap.
Section Map.
Variable mapped_type : Type.

(** [value_type] of the map: [std::pair<const std::string, T>]. *)
Definition value_type : Type := (string * mapped_type)%type.

(** The elements from [begin ()] to [end ()]. [std::less<std::string>]
    orders the keys, [String.compare] is that order. *)
Definition t : Type := list value_type.

Definition empty_map : t := [].

(** [m.empty ()] *)
Definition empty (m : t) : bool :=
  match m with
  | [] => true
  | _ :: _ => false
  end.

(** [m.find (k)]: the element with key [k], [None] for [m.end ()]. The
    search follows the order of the keys. *)
Fixpoint find (k : string) (m : t) : option value_type :=
  match m with
  | [] => None
  | (k', v) :: rest =>
      match String.compare k k' with
      | Eq => Some (k', v)
      | Lt => None
      | Gt => find k rest
      end
  end.

(** [m[k] = v]: the element with key [k] is assigned, and inserted at the
    place of [k] among the keys when there is none. *)
Fixpoint subscript_assign (k : string) (v : mapped_type) (m : t) : t :=
  match m with
  | [] => [(k, v)]
  | (k', v') :: rest =>
      match String.compare k k' with
      | Eq => (k', v) :: rest
      | Lt => (k, v) :: (k', v') :: rest
      | Gt => (k', v') :: subscript_assign k v rest
      end
  end.

(** [m[k]], the inserting access: a reference to the element with key [k],
    which is inserted with a default-constructed value when there is none.
    The element reached and the map the access leaves. *)
Definition subscript (default : mapped_type) (k : string) (m : t)
  : value_type * t :=
  match find k m with
  | Some it => (it, m)
  | None => ((k, default), subscript_assign k default m)
  end.

(** The keys in iteration order. *)
Definition keys (m : t) : list string := map fst m.

(** The keys ascend strictly: the invariant of the container. *)
Definition ordered (m : t) : Prop := Sorted String_as_OT.lt (keys m).

End Map.
End StdMap.

(** *** [boost::variant] *)

Module Variant.
Section Variant.
Context {B : BoundedTypes}.

(** A variant holds a value of exactly one of its bounded types. *)
Record variant : Type := {
  which : bounded_type;
  content : holds which
}.

(** [boost::get<T> (v)] on a reference: the held value when the variant
    holds a [T], [boost::bad_get] otherwise. *)
Definition get (T : bounded_type) (v : variant) : outcome (holds T) :=
  match bounded_type_eq_dec (which v) T with
  | left e => Returned (eq_rect (which v) holds (content v) T e)
  | right _ => Thrown boost_bad_get
  end.

End Variant.
End Variant.

Import Function.

(** *** [LinearFunction] (linear-function.hh) *)

Module LinearFunction.
Section LinearFunction.
Context {V : Scalar}.

(** Modelled from the spec: the body of [LinearFunction::hessian]
    (linear-function.cc is not among the sources; the header declares the
    member with unnamed parameters). It is the [n] x [n] matrix of zeros,
    for every [x] and every [i]. *)
Definition hessian_body (n : nat) (x : vector_t) (i : Z) : outcome hessian_t :=
  Returned (zero_matrix n n).

(** [LinearFunction (size_type n, size_type m = 1)]: the input and output
    sizes, the latter being 1 when the argument is left out. *)
Definition LinearFunction (n : nat) (m : option nat) : nat * nat :=
  (n, match m with
      | Some m' => m'
      | None => 1
      end).

(** A complete object of a class derived from [LinearFunction (n, m)]: the
    final overriders of the members the base classes leave pure, and the
    class's own [hessian] when it declares one. The header declares
    [virtual hessian_t hessian (const vector_t&, int) const throw ()], so a
    derived class may declare the member again. *)
Record object : Type := {
  n : nat;
  m : nat;
  call_ : vector_t -> outcome vector_t;
  gradient_ : vector_t -> Z -> outcome gradient_t;
  jacobian_ : vector_t -> outcome jacobian_t;
  own_hessian : option (vector_t -> Z -> outcome hessian_t)
}.

(** [f.hessian (x, i)]: the virtual call runs the final overrider. The
    member is declared [throw ()], and an overrider's exception
    specification is at least as strict. *)
Definition hessian (f : object) (x : vector_t) (i : Z) : outcome hessian_t :=
  exception_specification throw_nothing
    (match own_hessian f with
     | Some h => h x i
     | None => hessian_body (n f) x i
     end).

End LinearFunction.
End LinearFunction.

(** *** [NumericLinearFunction] (declared at the end of solver.hxx) *)

Module NumericLinearFunction.
Section NumericLinearFunction.
Context {V : Scalar}.

(** The private members [a_] and [b_]. *)
Record members : Type := {
  a_ : matrix_t;
  b_ : vector_t
}.

(** The sizes handed to [LinearFunction]: the columns and the rows of the
    matrix. *)
Definition input_size (f : members) : nat := cols (a_ f).
Definition output_size (f : members) : nat := rows (a_ f).

(** The product of a row and a vector, accumulated from the left. *)
Definition inner_prod (row x : vector_t) : value_type :=
  fold_left (fun acc p => plus acc (times (fst p) (snd p))) (combine row x) zero.

(** [a * x] *)
Definition prod (a : matrix_t) (x : vector_t) : vector_t :=
  map (fun row => inner_prod row x) a.

(** [u + v] *)
Definition vector_plus (u v : vector_t) : vector_t :=
  map (fun p => plus (fst p) (snd p)) (combine u v).

(** The exception of a dimension mismatch (the spec's [OutOfRange]). *)
Definition dimension_mismatch : exception :=
  std_out_of_range "dimension mismatch".

(** [0 <= i < m] for an output index [i] of type [int]. *)
Definition valid_index (m : nat) (i : Z) : bool :=
  ((0 <=? i)%Z && (i <? Z.of_nat m)%Z)%bool.

(** Modelled from the spec: the bodies of [operator ()], [gradient] and
    [jacobian] (numeric-linear-function.cc is not among the sources):
    [A x + b], row [i] of [A], and [A]; a dimension mismatch raises
    [OutOfRange]. *)
Definition call_body (f : members) (x : vector_t) : outcome vector_t :=
  if Nat.eqb (length x) (input_size f)
  then Returned (vector_plus (prod (a_ f) x) (b_ f))
  else Thrown dimension_mismatch.

Definition gradient_body (f : members) (x : vector_t) (i : Z)
  : outcome gradient_t :=
  if (Nat.eqb (length x) (input_size f) && valid_index (output_size f) i)%bool
  then Returned (nth (Z.to_nat i) (a_ f) [])
  else Thrown dimension_mismatch.

Definition jacobian_body (f : members) (x : vector_t) : outcome jacobian_t :=
  if Nat.eqb (length x) (input_size f)
  then Returned (a_ f)
  else Thrown dimension_mismatch.

(** The members as declared: each of them [throw ()]. *)
Definition call (f : members) (x : vector_t) : outcome vector_t :=
  exception_specification throw_nothing (call_body f x).

Definition gradient (f : members) (x : vector_t) (i : Z) : outcome gradient_t :=
  exception_specification throw_nothing (gradient_body f x i).

Definition jacobian (f : members) (x : vector_t) : outcome jacobian_t :=
  exception_specification throw_nothing (jacobian_body f x).

(** The object: the class declares [operator ()], [gradient], [jacobian]
    and [print], and no [hessian]. *)
Definition NumericLinearFunction (a : matrix_t) (b : vector_t)
  : LinearFunction.object :=
  let f := {| a_ := a; b_ := b |} in
  let sizes :=
    LinearFunction.LinearFunction (input_size f) (Some (output_size f)) in
  {| LinearFunction.n := fst sizes;
     LinearFunction.m := snd sizes;
     LinearFunction.call_ := call f;
     LinearFunction.gradient_ := gradient f;
     LinearFunction.jacobian_ := jacobian f;
     LinearFunction.own_hessian := None |}.

(** The coefficient [(i, j)] of a matrix. *)
Definition coefficient (a : matrix_t) (i j : nat) : value_type :=
  nth j (nth i a []) zero.

(** The sum of [f 0], ..., [f (n - 1)], added up in this order from zero. *)
Fixpoint sigma (n : nat) (f : nat -> value_type) : value_type :=
  match n with
  | O => zero
  | S k => plus (sigma k f) (f k)
  end.

(** Coefficient [i] of [A x + b], as the spec writes it: the sum over [j] of
    [A (i, j) * x (j)], plus [b (i)]. *)
Definition affine (a : matrix_t) (b x : vector_t) (i : nat) : value_type :=
  plus (sigma (length x) (fun j => times (coefficient a i j) (nth j x zero)))
       (nth i b zero).

(** [a] has rows of one length, its number of columns. *)
Definition well_formed (a : matrix_t) : Prop :=
  Forall (fun row => length row = cols a) a.

End NumericLinearFunction.
End NumericLinearFunction.

(** *** The result of a solver (design notes of optimization-fwd.hh) *)

Module GenericSolver.
Section GenericSolver.
Context {V : Scalar}.

(** [which ()] of the result, as the tutorial's [switch] names the cases. *)
Inductive solutions : Type :=
| SOLVER_NO_SOLUTION
| SOLVER_VALUE
| SOLVER_VALUE_WARNINGS
| SOLVER_ERROR.

(** The optimum: the point, the value of the objective there and the values
    of the constraints. *)
Record Result : Type := {
  result_x : vector_t;
  result_value : vector_t;
  result_constraints : vector_t
}.

(** [result_t]: a variant of [NoSolution], [Result], [ResultWithWarnings]
    and [SolverError]. *)
Inductive result_t : Type :=
| NoSolution
| Result_ (r : Result)
| ResultWithWarnings_ (r : Result) (warnings : list string)
| SolverError_ (what : string).

Definition which (r : result_t) : solutions :=
  match r with
  | NoSolution => SOLVER_NO_SOLUTION
  | Result_ _ => SOLVER_VALUE
  | ResultWithWarnings_ _ _ => SOLVER_VALUE_WARNINGS
  | SolverError_ _ => SOLVER_ERROR
  end.

End GenericSolver.
End GenericSolver.

Import GenericSolver.

(** *** [Solver<F, C>] (solver.hxx) over [GenericSolver] *)

Module Solver.
Section Solver.
Context {V : Scalar} {P : ProblemType}.

(** A bridge: the leaf class that implements [solve ()]. It has members of
    its own, reads the problem through [problem ()], which hands out a
    reference to const ("once a solver is created with a problem, the
    problem can never be modified again", optimization-fwd.hh), and reads
    and writes the protected [result_], which it "has to fill". *)
Record Bridge : Type := {
  bridge_t : Type;
  solve_body : problem_t -> bridge_t -> result_t -> bridge_t * result_t
}.

Variable bridge : Bridge.

(** The object: [result_] of [GenericSolver], [problem_] of [Solver], the
    bridge's own members, and a ghost counter of the calls of [solve ()]. *)
Record solver : Type := {
  result_ : result_t;
  problem_ : problem_t;
  bridge_ : bridge_t bridge;
  solve_calls : nat
}.

(** Modelled from the spec: [GenericSolver ()], the constructor of the base
    class (generic-solver.cc is not among the sources), leaves [NoSolution]
    in [result_]. *)
Definition GenericSolver : result_t := NoSolution.

(** [Solver (const problem_t& pb)]: [GenericSolver ()], then [problem_ (pb)]. *)
Definition Solver (pb : problem_t) (b0 : bridge_t bridge) : solver :=
  {| result_ := GenericSolver; problem_ := pb; bridge_ := b0;
     solve_calls := 0 |}.

(** [Solver (const Problem<F_, C_>& pb)]: the same, [problem_] being built
    by the converting copy constructor of [Problem] ([broaden]). *)
Definition Solver_of (Q : Type) (broaden : Q -> problem_t) (pb : Q)
  (b0 : bridge_t bridge) : solver :=
  {| result_ := GenericSolver; problem_ := broaden pb; bridge_ := b0;
     solve_calls := 0 |}.

(** [problem ()] *)
Definition problem (s : solver) : problem_t := problem_ s.

(** [print (o)]: [return o << problem_;] *)
Definition print (s : solver) (o : ostream problem_t) : ostream problem_t :=
  o << Put (problem_ s).

(** [solve ()], the bridge's. *)
Definition solve (s : solver) : solver :=
  let br := solve_body bridge (problem_ s) (bridge_ s) (result_ s) in
  {| result_ := snd br; problem_ := problem_ s; bridge_ := fst br;
     solve_calls := S (solve_calls s) |}.

(** What a call of [getMinimum ()] comes to: the result handed to the
    caller, or the detection that [solve ()] left [NoSolution] behind. *)
Inductive minimum : Type :=
| Minimum (s : solver) (r : result_t)
| ContractViolation (s : solver).

(** Modelled from the spec: [GenericSolver::getMinimum] (generic-solver.cc
    is not among the sources). A result other than [NoSolution] is handed
    out as it is; otherwise [solve ()] runs once, and the result it leaves
    is checked before it is handed out. *)
Definition getMinimum (s : solver) : minimum :=
  match which (result_ s) with
  | SOLVER_NO_SOLUTION =>
      let s' := solve s in
      match which (result_ s') with
      | SOLVER_NO_SOLUTION => ContractViolation s'
      | _ => Minimum s' (result_ s')
      end
  | _ => Minimum s (result_ s)
  end.

(** Modelled from the spec: [GenericSolver::reset] puts [NoSolution] back. *)
Definition reset (s : solver) : solver :=
  {| result_ := NoSolution; problem_ := problem_ s; bridge_ := bridge_ s;
     solve_calls := solve_calls s |}.

(** The solver after a call of [getMinimum ()]. *)
Definition after (o : minimum) : solver :=
  match o with
  | Minimum s _ => s
  | ContractViolation s => s
  end.

(** [k] calls of [getMinimum ()] in a row: the results handed out, and the
    solver they leave; the calls stop at a contract violation. *)
Fixpoint getMinimum_times (k : nat) (s : solver) : list result_t * solver :=
  match k with
  | O => ([], s)
  | S k' =>
      match getMinimum s with
      | Minimum s' r =>
          let rest := getMinimum_times k' s' in (r :: fst rest, snd rest)
      | ContractViolation s' => ([], s')
      end
  end.

(** The calls a user of the solver can make. *)
Inductive call : Type :=
| call_problem
| call_print
| call_solve
| call_getMinimum
| call_reset.

(** What a call shows to its caller. *)
Inductive shown : Type :=
| shown_problem (pb : problem_t)
| shown_print (o : ostream problem_t)
| shown_minimum (r : result_t)
| shown_nothing
| shown_violation.

Definition step (c : call) (s : solver) : shown * solver :=
  match c with
  | call_problem => (shown_problem (problem s), s)
  | call_print => (shown_print (print s []), s)
  | call_solve => (shown_nothing, solve s)
  | call_getMinimum =>
      match getMinimum s with
      | Minimum s' r => (shown_minimum r, s')
      | ContractViolation s' => (shown_violation, s')
      end
  | call_reset => (shown_nothing, reset s)
  end.

(** A sequence of calls; it ends at a contract violation. *)
Fixpoint run (cs : list call) (s : solver) : list shown * solver :=
  match cs with
  | [] => ([], s)
  | c :: cs' =>
      let r := step c s in
      match fst r with
      | shown_violation => ([shown_violation], snd r)
      | sh => let rest := run cs' (snd r) in (sh :: fst rest, snd rest)
      end
  end.

(** What the calls showed of the problem. *)
Definition problem_shown (sh : shown) : option problem_t :=
  match sh with
  | shown_problem pb => Some pb
  | shown_print [Put pb] => Some pb
  | _ => None
  end.

End Solver.
End Solver.

(** *** [SolverState<P>] (solver-state.hxx) *)

Module SolverState.
Section SolverState.
Context {V : Scalar} {B : BoundedTypes} {P : ProblemType}.

(** [StateParameter<F>]: a description and a variant. *)
Record StateParameter : Type := {
  description : string;
  value : Variant.variant
}.

(** [parameters_t]: the elements from [begin ()] to [end ()]. The typedef is
    in solver-state.hh; solver-state.hxx iterates the container as one of
    [std::pair<const std::string, StateParameter<function_t> >] and
    searches it with [find]. It is modelled by [StdMap], a mapping with one
    element for a key. The place that [StdMap] gives an element among the
    others is that of a [std::map]; solver-state.hxx does not decide it,
    and the theorems on searching, storing and printing are stated without
    it. *)
Definition parameters_t : Type := StdMap.t StateParameter.

Record state : Type := {
  x_ : vector_t;
  cost_ : option value_type;
  constraintViolation_ : option value_type;
  parameters_ : parameters_t
}.

(** Assignments through the references that the non-const accessors
    [x ()], [cost ()], [constraintViolation ()] and [parameters ()] return. *)
Definition set_x (v : vector_t) (s : state) : state :=
  {| x_ := v; cost_ := cost_ s;
     constraintViolation_ := constraintViolation_ s;
     parameters_ := parameters_ s |}.

Definition set_cost (c : option value_type) (s : state) : state :=
  {| x_ := x_ s; cost_ := c;
     constraintViolation_ := constraintViolation_ s;
     parameters_ := parameters_ s |}.

Definition set_constraintViolation (c : option value_type) (s : state) : state :=
  {| x_ := x_ s; cost_ := cost_ s;
     constraintViolation_ := c;
     parameters_ := parameters_ s |}.

Definition set_parameters (m : parameters_t) (s : state) : state :=
  {| x_ := x_ s; cost_ := cost_ s;
     constraintViolation_ := constraintViolation_ s;
     parameters_ := m |}.

(** [SolverState (const problem_t& pb)]: [cost_ ()] and
    [constraintViolation_ ()] are empty optionals, [x_] and [parameters_]
    are default constructed; then [x_.resize (pb.function ().inputSize ())]
    and [x_.setZero ()]. *)
Definition SolverState (garbage : nat -> value_type) (pb : problem_t) : state :=
  let s0 := {| x_ := []; cost_ := None; constraintViolation_ := None;
               parameters_ := StdMap.empty_map StateParameter |} in
  let s1 := set_x (resize garbage (inputSize (function pb)) (x_ s0)) s0 in
  set_x (setZero (x_ s1)) s1.

(** The accessors (const and non-const return the same member). *)
Definition x (s : state) : vector_t := x_ s.
Definition cost (s : state) : option value_type := cost_ s.
Definition constraintViolation (s : state) : option value_type :=
  constraintViolation_ s.
Definition parameters (s : state) : parameters_t := parameters_ s.

(** [std::out_of_range ("key " + key + " not found")] *)
Definition key_not_found (key : string) : exception :=
  std_out_of_range (String.append "key " (String.append key " not found")).

(** [getParameter<T> (key) const throw (std::out_of_range)] *)
Definition getParameter_const (T : bounded_type) (key : string) (s : state)
  : outcome (holds T) :=
  exception_specification throw_std_out_of_range
    (match StdMap.find key (parameters_ s) with
     | None => Thrown (key_not_found key)
     | Some it => Variant.get T (value (snd it))
     end).

(** [getParameter<T> (key) throw (std::out_of_range)], the non-const member:
    the outcome and the state the call leaves. *)
Definition getParameter (T : bounded_type) (key : string) (s : state)
  : outcome (holds T) * state :=
  let it := StdMap.find key (parameters_ s) in
  (exception_specification throw_std_out_of_range
     (match it with
      | None => Thrown (key_not_found key)
      | Some it => Variant.get T (value (snd it))
      end),
   s).

(** What [print] inserts with an [operator<<] of the inserted type. *)
Inductive printed : Type :=
| printed_vector (v : vector_t)
| printed_value (c : value_type)
| printed_variant (v : Variant.variant).

(** The body of the [BOOST_FOREACH] loop of [print]. *)
Definition print_parameter (o : ostream printed) (it : StdMap.value_type StateParameter)
  : ostream printed :=
  o << Iendl << Str (fst it) << Str " (" << Str (description (snd it))
    << Str ")" << Str ": " << Put (printed_variant (value (snd it))).

(** [print (o)] *)
Definition print (s : state) (o : ostream printed) : ostream printed :=
  let o := o << Str "Solver state:" << Incindent in
  let o := o << Iendl << Str "x: " << Put (printed_vector (x_ s)) in
  let o := match cost_ s with
           | Some c => o << Iendl << Str "Cost: " << Put (printed_value c)
           | None => o
           end in
  let o := match constraintViolation_ s with
           | Some c =>
               o << Iendl << Str "Constraint violation: "
                 << Put (printed_value c)
           | None => o
           end in
  let o := if negb (StdMap.empty (parameters_ s))
           then
             let o := o << Iendl << Str "Parameters:" << Incindent in
             let o := fold_left print_parameter (parameters_ s) o in
             o << Decindent
           else o in
  o << Decindent.

(** [operator<< (std::ostream& o, const SolverState<P>& state)] *)
Definition shl_state (o : ostream printed) (s : state) : ostream printed :=
  print s o.

(** The keys of the parameter lines of a printed state, in the order of the
    lines: a parameter line is [iendl], the key, then [" ("]. *)
Fixpoint parameter_lines (o : ostream printed) : list string :=
  match o with
  | [] => []
  | i :: rest =>
      match i, rest with
      | Iendl, Str k :: Str paren :: _ =>
          if String.eqb paren " (" then k :: parameter_lines rest
          else parameter_lines rest
      | _, _ => parameter_lines rest
      end
  end.

(** The bridge stores parameters through [parameters ()]:
    [state.parameters ()[key] = p]. *)
Definition store (key : string) (p : StateParameter) (s : state) : state :=
  set_parameters (StdMap.subscript_assign key p (parameters_ s)) s.

(** A sequence of such stores, the first of the list first. *)
Definition store_all (kps : list (string * StateParameter)) (s : state) : state :=
  fold_left (fun s kp => store (fst kp) (snd kp) s) kps s.

(** What the loop of [print] inserts for one parameter, as a list. *)
Definition parameter_items (it : StdMap.value_type StateParameter)
  : ostream printed :=
  [Iendl; Str (fst it); Str " ("; Str (description (snd it));
   Str ")"; Str ": "; Put (printed_variant (value (snd it)))].

(** The last parameter stored under [k] in a sequence of stores. *)
Fixpoint last_stored (k : string) (kps : list (string * StateParameter))
  : option StateParameter :=
  match kps with
  | [] => None
  | (k', p) :: rest =>
      match last_stored k rest with
      | Some q => Some q
      | None => if String.eqb k k' then Some p else None
      end
  end.

End SolverState.
End SolverState.

(** *** Instances used to run the model *)

Module Examples.

(** Integers as scalars. *)
#[export] Instance Z_scalar : Scalar :=
  {| value_type := Z; zero := 0%Z; plus := Z.add; times := Z.mul |}.

(** A variant of [int] and [std::string]. *)
Inductive example_type : Type :=
| type_int
| type_string.

Definition example_type_eq_dec (a b : example_type) : {a = b} + {a <> b}.
Proof. decide equality. Defined.

#[export] Instance example_types : BoundedTypes :=
  {| bounded_type := example_type;
     bounded_type_eq_dec := example_type_eq_dec;
     holds := fun t => match t with
                       | type_int => Z
                       | type_string => string
                       end |}.

(** A problem that is the input size of its objective. *)
#[export] Instance example_problem : ProblemType :=
  {| problem_t := nat; function_t := nat;
     function := fun pb => pb; inputSize := fun f => f |}.

(** A bridge stub whose [solve ()] stores a [Result] and counts its runs. *)
Definition stub_bridge : Solver.Bridge :=
  {| Solver.bridge_t := nat;
     Solver.solve_body := fun pb runs _ =>
       (S runs,
        Result_ {| result_x := repeat 1%Z pb;
                   result_value := [Z.of_nat runs];
                   result_constraints := [] |}) |}.

(** A bridge whose [solve ()] leaves [result_] as it found it. *)
Definition idle_bridge : Solver.Bridge :=
  {| Solver.bridge_t := unit;
     Solver.solve_body := fun _ b r => (b, r) |}.

(** Two parameters. *)
Definition iterations : SolverState.StateParameter :=
  {| SolverState.description := "number of iterations";
     SolverState.value := {| Variant.which := type_int;
                             Variant.content := 42%Z |} |}.

Definition status : SolverState.StateParameter :=
  {| SolverState.description := "status of the solver";
     SolverState.value := {| Variant.which := type_string;
                             Variant.content := "converged"%string |} |}.

(** A class derived from [LinearFunction (1, 1)] that declares a [hessian]
    of its own. *)
Definition WithOwnHessian : LinearFunction.object :=
  {| LinearFunction.n := 1;
     LinearFunction.m := 1;
     LinearFunction.call_ := fun x => Returned x;
     LinearFunction.gradient_ := fun _ _ => Returned [1%Z];
     LinearFunction.jacobian_ := fun _ => Returned [[1%Z]];
     LinearFunction.own_hessian := Some (fun _ _ => Returned [[2%Z]]) |}.

(** A state in which the bridge stored ["status"] first and ["iterations"]
    second. *)
Definition status_then_iterations : SolverState.state :=
  SolverState.store_all
    [("status"%string, status); ("iterations"%string, iterations)]
    (SolverState.SolverState (fun _ => 7%Z) 2).

(** The matrix [(2 3)] and the vector [(1)]: x |-> 2 x0 + 3 x1 + 1. *)
Definition two_three_plus_one : LinearFunction.object :=
  NumericLinearFunction.NumericLinearFunction [[2%Z; 3%Z]] [1%Z].

(** Its members. *)
Definition two_three_plus_one_members : NumericLinearFunction.members :=
  {| NumericLinearFunction.a_ := [[2%Z; 3%Z]];
     NumericLinearFunction.b_ := [1%Z] |}.

End Examples.

(** *** The manipulators of a stream, seen as brackets *)

Module Nesting.
Section Nesting.
Variable P : Type.

(** The nesting level after the items of [o], starting at [level]:
    [Incindent] opens a level and [Decindent] closes one; [None] when a
    level is closed that was not opened. *)
Fixpoint nesting (level : nat) (o : ostream P) : option nat :=
  match o with
  | [] => Some level
  | Incindent :: rest => nesting (S level) rest
  | Decindent :: rest =>
      match level with
      | O => None
      | S l => nesting l rest
      end
  | _ :: rest => nesting level rest
  end.

(** The number of lines that the items start. *)
Fixpoint lines (o : ostream P) : nat :=
  match o with
  | [] => 0
  | Iendl :: rest => S (lines rest)
  | _ :: rest => lines rest
  end.

End Nesting.
End Nesting.

(** *** The tutorial of optimization-fwd.hh: [F], [G0], [G1], [run_test] *)

(** The literals of the tutorial ([2], [2.], [1]) as scalars. *)
Class Numerals (V : Scalar) : Type := {
  numeral : Z -> value_type
}.

Module Tutorial.

(** Accesses that may fall outside a vector or a matrix: [None] stands for
    an index that the container does not have. *)
Definition bind {A B : Type} (c : option A) (k : A -> option B) : option B :=
  match c with
  | Some a => k a
  | None => None
  end.

Notation "x <- c ;; k" := (bind c (fun x => k))
  (at level 61, c at next level, right associativity).

(** [v[i]], read. *)
Definition coeff {A : Type} (v : list A) (i : nat) : option A :=
  nth_error v i.

(** [v[i] = c] *)
Fixpoint assign {A : Type} (v : list A) (i : nat) (c : A) : option (list A) :=
  match v, i with
  | [], _ => None
  | _ :: rest, O => Some (c :: rest)
  | a :: rest, S i' =>
      match assign rest i' c with
      | Some rest' => Some (a :: rest')
      | None => None
      end
  end.

(** [h (i, j)], read. *)
Definition coeff2 {A : Type} (h : list (list A)) (i j : nat) : option A :=
  row <- coeff h i ;; coeff row j.

(** [h (i, j) = c] *)
Definition assign2 {A : Type} (h : list (list A)) (i j : nat) (c : A)
  : option (list (list A)) :=
  row <- coeff h i ;;
  row' <- assign row j c ;;
  assign h i row'.

Section Functions.
Context {V : Scalar} {N : Numerals V}.

(** The four coefficients [x[0]], ..., [x[3]] that every member reads. *)
Definition read4 {B : Type} (x : vector_t)
  (k : value_type -> value_type -> value_type -> value_type -> option B)
  : option B :=
  x0 <- coeff x 0 ;; x1 <- coeff x 1 ;; x2 <- coeff x 2 ;; x3 <- coeff x 3 ;;
  k x0 x1 x2 x3.

(** [struct F : public TwiceDifferentiableFunction], constructed with the
    sizes [(4, 1)]. The members take the buffer they write and the
    argument; the last argument of [impl_gradient] and [impl_hessian] is
    unnamed and unused. *)
Definition F_inputSize : nat := 4.
Definition F_outputSize : nat := 1.

(** [result (0) = x[0] * x[3] * (x[0] + x[1] + x[2]) + x[3];] *)
Definition F_impl_compute (result x : vector_t) : option vector_t :=
  read4 x (fun x0 x1 x2 x3 =>
    assign result 0
      (plus (times (times x0 x3) (plus (plus x0 x1) x2)) x3)).

(** [grad[0] = x[0] * x[3] + x[3] * (x[0] + x[1] + x[2]);]
    [grad[1] = x[0] * x[3];]
    [grad[2] = x[0] * x[3] + 1;]
    [grad[3] = x[0] * (x[0] + x[1] + x[2]);] *)
Definition F_impl_gradient (grad x : vector_t) : option vector_t :=
  read4 x (fun x0 x1 x2 x3 =>
    g <- assign grad 0
           (plus (times x0 x3) (times x3 (plus (plus x0 x1) x2))) ;;
    g <- assign g 1 (times x0 x3) ;;
    g <- assign g 2 (plus (times x0 x3) (numeral 1)) ;;
    assign g 3 (times x0 (plus (plus x0 x1) x2))).

(** The sixteen assignments [h (i, j) = ...] of [F::impl_hessian], in the
    order of the source. *)
Definition F_impl_hessian (h : matrix_t) (x : vector_t) : option matrix_t :=
  read4 x (fun x0 x1 x2 x3 =>
    h <- assign2 h 0 0 (times (numeral 2) x3) ;;
    h <- assign2 h 0 1 x3 ;;
    h <- assign2 h 0 2 x3 ;;
    h <- assign2 h 0 3 (plus (plus (times (numeral 2) x0) x1) x2) ;;
    h <- assign2 h 1 0 x3 ;;
    h <- assign2 h 1 1 zero ;;
    h <- assign2 h 1 2 zero ;;
    h <- assign2 h 1 3 x0 ;;
    h <- assign2 h 2 0 x3 ;;
    h <- assign2 h 2 1 zero ;;
    h <- assign2 h 2 2 zero ;;
    h <- assign2 h 2 3 x1 ;;
    h <- assign2 h 3 0 (plus (plus (times (numeral 2) x0) x1) x2) ;;
    h <- assign2 h 3 1 x0 ;;
    h <- assign2 h 3 2 x0 ;;
    assign2 h 3 3 zero).

(** [struct G0], sizes [(4, 1)].
    [result (0) = x[0] * x[1] * x[2] * x[3];] *)
Definition G0_impl_compute (result x : vector_t) : option vector_t :=
  read4 x (fun x0 x1 x2 x3 =>
    assign result 0 (times (times (times x0 x1) x2) x3)).

(** [grad[0] = x[1] * x[2] * x[3];] [grad[1] = x[0] * x[2] * x[3];]
    [grad[2] = x[0] * x[1] * x[3];] [grad[3] = x[0] * x[1] * x[2];] *)
Definition G0_impl_gradient (grad x : vector_t) : option vector_t :=
  read4 x (fun x0 x1 x2 x3 =>
    g <- assign grad 0 (times (times x1 x2) x3) ;;
    g <- assign g 1 (times (times x0 x2) x3) ;;
    g <- assign g 2 (times (times x0 x1) x3) ;;
    assign g 3 (times (times x0 x1) x2)).

Definition G0_impl_hessian (h : matrix_t) (x : vector_t) : option matrix_t :=
  read4 x (fun x0 x1 x2 x3 =>
    h <- assign2 h 0 0 zero ;;
    h <- assign2 h 0 1 (times x2 x3) ;;
    h <- assign2 h 0 2 (times x1 x3) ;;
    h <- assign2 h 0 3 (times x1 x2) ;;
    h <- assign2 h 1 0 (times x2 x3) ;;
    h <- assign2 h 1 1 zero ;;
    h <- assign2 h 1 2 (times x0 x3) ;;
    h <- assign2 h 1 3 (times x0 x2) ;;
    h <- assign2 h 2 0 (times x1 x3) ;;
    h <- assign2 h 2 1 (times x0 x3) ;;
    h <- assign2 h 2 2 zero ;;
    h <- assign2 h 2 3 (times x0 x1) ;;
    h <- assign2 h 3 0 (times x1 x2) ;;
    h <- assign2 h 3 1 (times x0 x2) ;;
    h <- assign2 h 3 2 (times x0 x1) ;;
    assign2 h 3 3 zero).

(** [struct G1], sizes [(4, 1)].
    [result (0) = x[0]*x[0] + x[1]*x[1] + x[2]*x[2] + x[3]*x[3];] *)
Definition G1_impl_compute (result x : vector_t) : option vector_t :=
  read4 x (fun x0 x1 x2 x3 =>
    assign result 0
      (plus (plus (plus (times x0 x0) (times x1 x1)) (times x2 x2))
            (times x3 x3))).

(** [grad[i] = 2 * x[i];] for [i] from 0 to 3. *)
Definition G1_impl_gradient (grad x : vector_t) : option vector_t :=
  read4 x (fun x0 x1 x2 x3 =>
    g <- assign grad 0 (times (numeral 2) x0) ;;
    g <- assign g 1 (times (numeral 2) x1) ;;
    g <- assign g 2 (times (numeral 2) x2) ;;
    assign g 3 (times (numeral 2) x3)).

(** [h (i, i) = 2.;] and [h (i, j) = 0.;] elsewhere. [x] is not read. *)
Definition G1_impl_hessian (h : matrix_t) (x : vector_t) : option matrix_t :=
  h <- assign2 h 0 0 (numeral 2) ;;
  h <- assign2 h 0 1 zero ;;
  h <- assign2 h 0 2 zero ;;
  h <- assign2 h 0 3 zero ;;
  h <- assign2 h 1 0 zero ;;
  h <- assign2 h 1 1 (numeral 2) ;;
  h <- assign2 h 1 2 zero ;;
  h <- assign2 h 1 3 zero ;;
  h <- assign2 h 2 0 zero ;;
  h <- assign2 h 2 1 zero ;;
  h <- assign2 h 2 2 (numeral 2) ;;
  h <- assign2 h 2 3 zero ;;
  h <- assign2 h 3 0 zero ;;
  h <- assign2 h 3 1 zero ;;
  h <- assign2 h 3 2 zero ;;
  assign2 h 3 3 (numeral 2).

(** What a member leaves in a buffer of the declared size: the value, the
    coefficient [i] of the gradient, the coefficient [(i, j)] of the
    hessian. *)
Definition value_at (compute : vector_t -> vector_t -> option vector_t)
  (x : vector_t) : option value_type :=
  r <- compute (repeat zero 1) x ;; coeff r 0.

Definition gradient_at (gradient : vector_t -> vector_t -> option vector_t)
  (i : nat) (x : vector_t) : option value_type :=
  g <- gradient (repeat zero 4) x ;; coeff g i.

Definition hessian_at (hessian : matrix_t -> vector_t -> option matrix_t)
  (i j : nat) (x : vector_t) : option value_type :=
  h <- hessian (zero_matrix 4 4) x ;; coeff2 h i j.

(** A buffer of [r] rows and [c] columns. *)
Definition shaped (r c : nat) (h : matrix_t) : Prop :=
  length h = r /\ Forall (fun row => length row = c) h.

(** What [run_test] writes to [std::cout] with an [operator<<] of the
    written type, [std::endl] included. *)
Inductive written : Type :=
| endl
| written_result (r : Result)
| written_warnings (r : Result) (warnings : list string).

(** [boost::get<Result> (res)], [boost::get<ResultWithWarnings> (res)] and
    [boost::get<SolverError> (res)] on the variant [result_t]. *)
Definition get_Result (res : result_t) : outcome Result :=
  match res with
  | Result_ r => Returned r
  | _ => Thrown boost_bad_get
  end.

Definition get_ResultWithWarnings (res : result_t)
  : outcome (Result * list string) :=
  match res with
  | ResultWithWarnings_ r w => Returned (r, w)
  | _ => Thrown boost_bad_get
  end.

Definition get_SolverError (res : result_t) : outcome string :=
  match res with
  | SolverError_ what => Returned what
  | _ => Thrown boost_bad_get
  end.

(** The [switch (res.which ())] that ends [run_test], with the value
    returned and what has been written to [std::cout]; [None] as a value
    stands for the [assert (0)] after the [switch]. [run_test] has no
    exception specification. *)
Definition run_test_switch (res : result_t) (cout : ostream written)
  : outcome (option Z * ostream written) :=
  match which res with
  | SOLVER_VALUE =>
      match get_Result res with
      | Returned result =>
          Returned (Some 0%Z,
                    cout << Str "A solution has been found: " << Put endl
                         << Put (written_result result) << Put endl)
      | Thrown e => Thrown e
      | Unexpected e => Unexpected e
      end
  | SOLVER_VALUE_WARNINGS =>
      match get_ResultWithWarnings res with
      | Returned (result, warnings) =>
          Returned (Some 0%Z,
                    cout << Str "A solution has been found: " << Put endl
                         << Put (written_warnings result warnings)
                         << Put endl)
      | Thrown e => Thrown e
      | Unexpected e => Unexpected e
      end
  | SOLVER_NO_SOLUTION
  | SOLVER_ERROR =>
      match get_SolverError res with
      | Returned what =>
          Returned (Some 2%Z,
                    cout << Str "A solution should have been found. Failing..."
                         << Put endl << Str what << Put endl)
      | Thrown e => Thrown e
      | Unexpected e => Unexpected e
      end
  end.

End Functions.

(** Exact arithmetic: the integers as scalars, with their numerals. *)
#[export] Instance Z_numerals : Numerals Examples.Z_scalar :=
  @Build_Numerals Examples.Z_scalar (fun z : Z => z).

(** [x] with [h] added to its coefficient [i]. *)
Fixpoint add_at (x : list Z) (i : nat) (h : Z) : list Z :=
  match x, i with
  | [], _ => []
  | c :: rest, O => (c + h)%Z :: rest
  | c :: rest, S i' => c :: add_at rest i' h
  end.

(** [g] is the partial derivative of [f] along the coordinate [i], for
    functions given by polynomials on four integers: [f (x + h e_i)] is
    [f x + h * g x] up to a multiple of [h * h], for every [x] and [h]. *)
Definition partial_derivative (f g : list Z -> option Z) (i : nat) : Prop :=
  forall x0 x1 x2 x3 h : Z,
  exists a b d : Z,
    f (add_at [x0; x1; x2; x3] i h) = Some a
    /\ f [x0; x1; x2; x3] = Some b
    /\ g [x0; x1; x2; x3] = Some d
    /\ (h * h | a - b - h * d)%Z.

End Tutorial.

(* ================================================================== *)
(** ** Part II: properties *)
(* ================================================================== *)

(** *** The order of the keys *)

Section KeyOrder.

Lemma compare_refl (k : string) : String.compare k k = Eq.
Proof. apply String_as_OT.cmp_eq. reflexivity. Qed.

Lemma compare_Eq (a b : string) : String.compare a b = Eq -> a = b.
Proof. apply String.compare_eq_iff. Qed.

Lemma compare_Lt (a b : string) :
  String.compare a b = Lt -> String_as_OT.lt a b.
Proof. apply String_as_OT.cmp_lt. Qed.

Lemma compare_Gt (a b : string) :
  String.compare a b = Gt -> String_as_OT.lt b a.
Proof.
  intro H. apply String_as_OT.cmp_lt.
  change (String.compare b a = Lt).
  rewrite String.compare_antisym, H. reflexivity.
Qed.

Lemma lt_compare (a b : string) :
  String_as_OT.lt a b -> String.compare a b = Lt.
Proof. apply String_as_OT.cmp_lt. Qed.

Lemma lt_compare_Gt (a b : string) :
  String_as_OT.lt a b -> String.compare b a = Gt.
Proof.
  intro H. rewrite String.compare_antisym, (lt_compare H). reflexivity.
Qed.

Lemma lt_irrefl (a : string) : ~ String_as_OT.lt a a.
Proof. intro H. exact (String_as_OT.lt_not_eq a a H eq_refl). Qed.

Lemma lt_asym (a b : string) :
  String_as_OT.lt a b -> String_as_OT.lt b a -> False.
Proof.
  intros H1 H2. exact (lt_irrefl (String_as_OT.lt_trans a b a H1 H2)).
Qed.

End KeyOrder.

(** Case analysis on a comparison of keys, each case with its meaning in
    the order. *)
Ltac compare_keys a b :=
  let E := fresh "E" in
  destruct (String.compare a b) eqn:E;
  [ apply compare_Eq in E | apply compare_Lt in E | apply compare_Gt in E ].

(** Closes a goal whose hypotheses contradict the order of the keys. *)
Ltac order_absurd :=
  subst;
  solve
    [ congruence
    | exfalso; eauto using lt_irrefl, lt_asym
    | exfalso;
      match goal with
      | H1 : String_as_OT.lt ?a ?b, H2 : String_as_OT.lt ?b ?c |- _ =>
          pose proof (String_as_OT.lt_trans a b c H1 H2);
          eauto using lt_irrefl, lt_asym
      end ].

(** Rewrites the comparisons that the hypotheses on the order decide. *)
Ltac decide_keys :=
  simpl;
  repeat
    (first
       [ rewrite compare_refl
       | match goal with
         | H : String_as_OT.lt ?a ?b |- _ =>
             first [ rewrite (lt_compare H) | rewrite (lt_compare_Gt H) ]
         end ];
     simpl).

(** *** [std::map]: searching, assigning and the order of the elements *)

Section StdMapFacts.
Variable T : Type.
Implicit Types (m : StdMap.t T) (k : string) (v : T).

Lemma find_empty_map k : StdMap.find k (StdMap.empty_map T) = None.
Proof. reflexivity. Qed.

(** The element found has the key searched for. *)
Lemma find_key k m k' v : StdMap.find k m = Some (k', v) -> k' = k.
Proof.
  induction m as [|[k1 v1] rest IH]; simpl; [discriminate|].
  compare_keys k k1; intro H; try discriminate; auto.
  inversion H; subst; reflexivity.
Qed.

(** After [m[k] = v], [find (k)] is at [(k, v)]. *)
Lemma find_subscript_assign_same k v m :
  StdMap.find k (StdMap.subscript_assign k v m) = Some (k, v).
Proof.
  induction m as [|[k1 v1] rest IH]; simpl.
  - rewrite compare_refl. reflexivity.
  - destruct (String.compare k k1) eqn:E; simpl.
    + rewrite E. apply compare_Eq in E. subst. reflexivity.
    + rewrite compare_refl. reflexivity.
    + rewrite E. exact IH.
Qed.

(** [m[k] = v] leaves the search for another key as it was. *)
Lemma find_subscript_assign_other k k0 v m :
  k0 <> k ->
  StdMap.find k0 (StdMap.subscript_assign k v m) = StdMap.find k0 m.
Proof.
  intro Hne.
  induction m as [|[k1 v1] rest IH]; simpl.
  - compare_keys k0 k; try reflexivity. order_absurd.
  - compare_keys k k1; simpl.
    + subst. destruct (String.compare k0 k1) eqn:E0; try reflexivity.
      apply compare_Eq in E0. order_absurd.
    + compare_keys k0 k.
      * order_absurd.
      * rewrite (lt_compare (String_as_OT.lt_trans _ _ _ E0 E)). reflexivity.
      * reflexivity.
    + destruct (String.compare k0 k1); auto.
Qed.

(** Two assignments to different keys commute. *)
Lemma subscript_assign_comm k1 v1 k2 v2 m :
  k1 <> k2 ->
  StdMap.subscript_assign k1 v1 (StdMap.subscript_assign k2 v2 m)
  = StdMap.subscript_assign k2 v2 (StdMap.subscript_assign k1 v1 m).
Proof.
  intro Hne.
  induction m as [|[k v] rest IH]; simpl.
  - compare_keys k1 k2; [order_absurd| |]; decide_keys; reflexivity.
  - compare_keys k2 k; compare_keys k1 k; subst;
      try (compare_keys k1 k2; [order_absurd| |]);
      try match goal with
        | H1 : String_as_OT.lt ?a ?b, H2 : String_as_OT.lt ?b ?c |- _ =>
            pose proof (String_as_OT.lt_trans a b c H1 H2)
        end;
      decide_keys; try reflexivity; try order_absurd.
Qed.

Lemma HdRel_subscript_assign k0 k v m :
  HdRel String_as_OT.lt k0 (StdMap.keys m) ->
  String_as_OT.lt k0 k ->
  HdRel String_as_OT.lt k0 (StdMap.keys (StdMap.subscript_assign k v m)).
Proof.
  intros Hhd Hlt.
  destruct m as [|[k1 v1] rest]; simpl.
  - constructor. exact Hlt.
  - destruct (String.compare k k1); simpl; constructor;
      solve [exact Hlt | inversion Hhd; assumption].
Qed.

(** [m[k] = v] keeps the keys in strictly ascending order. *)
Lemma ordered_subscript_assign k v m :
  StdMap.ordered m -> StdMap.ordered (StdMap.subscript_assign k v m).
Proof.
  unfold StdMap.ordered.
  induction m as [|[k1 v1] rest IH]; simpl; intro Hs.
  - repeat constructor.
  - inversion Hs as [|? ? Hrest Hhd]; subst.
    compare_keys k k1; simpl.
    + constructor; assumption.
    + constructor; [exact Hs | constructor; exact E].
    + constructor; [exact (IH Hrest)|].
      apply HdRel_subscript_assign; assumption.
Qed.

Lemma ordered_empty_map : StdMap.ordered (StdMap.empty_map T).
Proof. constructor. Qed.

End StdMapFacts.

(** *** [SolverState]: construction *)

Section SolverStateConstruction.
Context {V : Scalar} {B : BoundedTypes} {P : ProblemType}.

Lemma setZero_repeat (v : vector_t) : setZero v = repeat zero (length v).
Proof.
  unfold setZero. induction v as [|c v IH]; simpl; [reflexivity|].
  rewrite IH. reflexivity.
Qed.

Lemma length_resize (garbage : nat -> value_type) (n : nat) (v : vector_t) :
  length (resize garbage n v) = n.
Proof.
  unfold resize. destruct (Nat.eqb (length v) n) eqn:E.
  - apply Nat.eqb_eq. exact E.
  - rewrite length_map, length_seq. reflexivity.
Qed.

(** C8. A state constructed from a problem whose objective has input size
    [n] has an iterate [x ()] of length [n], all of whose coefficients are
    zero whatever the memory held; [cost ()] and [constraintViolation ()]
    are empty optionals, and hold a value, zero included, once one is
    assigned through the accessor. *)
Theorem SolverState_constructor_zero_iterate_no_cost
  (garbage : nat -> value_type) (pb : problem_t) :
  length (SolverState.x (SolverState.SolverState garbage pb))
  = inputSize (function pb)
  /\ SolverState.x (SolverState.SolverState garbage pb)
     = repeat zero (inputSize (function pb))
  /\ SolverState.cost (SolverState.SolverState garbage pb) = None
  /\ SolverState.constraintViolation (SolverState.SolverState garbage pb) = None
  /\ SolverState.cost
       (SolverState.set_cost (Some zero) (SolverState.SolverState garbage pb))
     = Some zero
  /\ SolverState.constraintViolation
       (SolverState.set_constraintViolation (Some zero)
          (SolverState.SolverState garbage pb))
     = Some zero.
Proof.
  assert (Hx : SolverState.x (SolverState.SolverState garbage pb)
               = repeat zero (inputSize (function pb))).
  { unfold SolverState.x, SolverState.SolverState. simpl.
    rewrite setZero_repeat, length_resize. reflexivity. }
  repeat split; try reflexivity.
  - rewrite Hx. apply repeat_length.
  - exact Hx.
Qed.

End SolverStateConstruction.

(** *** [SolverState::getParameter] *)

Section GetParameter.
Context {V : Scalar} {B : BoundedTypes} {P : ProblemType}.
Implicit Types (s : SolverState.state) (key : string) (T : bounded_type).

(** [boost::get<T>] on a variant that holds a [T] returns what it holds. *)
Lemma get_held T (c : holds T) :
  Variant.get T {| Variant.which := T; Variant.content := c |} = Returned c.
Proof.
  unfold Variant.get. simpl.
  destruct (bounded_type_eq_dec T T) as [e|ne]; [|contradiction].
  rewrite (UIP_dec bounded_type_eq_dec e eq_refl). reflexivity.
Qed.

(** [boost::get<T>] on a variant that holds another type raises
    [boost::bad_get]. *)
Lemma get_other T (v : Variant.variant) :
  Variant.which v <> T -> Variant.get T v = Thrown boost_bad_get.
Proof.
  intro Hne. unfold Variant.get.
  destruct (bounded_type_eq_dec (Variant.which v) T); [contradiction|reflexivity].
Qed.

(** The two members run the same body. *)
Lemma getParameter_fst T key s :
  fst (SolverState.getParameter T key s) = SolverState.getParameter_const T key s.
Proof. reflexivity. Qed.

(** A key that [find] does not reach: [std::out_of_range] reaches the caller. *)
Lemma getParameter_missing_key T key s :
  StdMap.find key (SolverState.parameters s) = None ->
  SolverState.getParameter_const T key s
  = Thrown (SolverState.key_not_found key).
Proof.
  unfold SolverState.getParameter_const, SolverState.parameters.
  intros ->. reflexivity.
Qed.

(** A key whose parameter holds a [T]: the held value is returned. *)
Lemma getParameter_held T key s k d (c : holds T) :
  StdMap.find key (SolverState.parameters s)
  = Some (k, {| SolverState.description := d;
                SolverState.value := {| Variant.which := T;
                                        Variant.content := c |} |}) ->
  SolverState.getParameter_const T key s = Returned c.
Proof.
  unfold SolverState.getParameter_const, SolverState.parameters.
  intros ->. simpl. rewrite get_held. reflexivity.
Qed.

(** A key whose parameter holds another type: [boost::bad_get] is raised in
    a member declared [throw (std::out_of_range)], and the call ends in
    [std::unexpected ()]. *)
Lemma getParameter_other_type T key s it :
  StdMap.find key (SolverState.parameters s) = Some it ->
  Variant.which (SolverState.value (snd it)) <> T ->
  SolverState.getParameter_const T key s = Unexpected boost_bad_get.
Proof.
  unfold SolverState.getParameter_const, SolverState.parameters.
  intros -> Hne. rewrite (get_other _ Hne). reflexivity.
Qed.

(** C10. [getParameter<T> (key)] leaves the state, and the parameters in
    it, as they were: the non-const member hands back the very state it
    was called on, and its outcome is that of the const member, which is a
    function of the state alone. With a missing key both throw
    [std::out_of_range], and the parameters are still the same. *)
Theorem getParameter_does_not_change_parameters T key s :
  snd (SolverState.getParameter T key s) = s
  /\ SolverState.parameters (snd (SolverState.getParameter T key s))
     = SolverState.parameters s
  /\ fst (SolverState.getParameter T key s)
     = SolverState.getParameter_const T key s
  /\ (StdMap.find key (SolverState.parameters s) = None ->
      fst (SolverState.getParameter T key s)
      = Thrown (SolverState.key_not_found key)
      /\ SolverState.getParameter_const T key s
         = Thrown (SolverState.key_not_found key)
      /\ StdMap.find key
           (SolverState.parameters (snd (SolverState.getParameter T key s)))
         = None).
Proof.
  repeat split; try reflexivity.
  - rewrite getParameter_fst. apply getParameter_missing_key. assumption.
  - apply getParameter_missing_key. assumption.
  - assumption.
Qed.

End GetParameter.

(** *** [SolverState::print] and the order of the parameters *)

Section PrintOrder.
Context {V : Scalar} {B : BoundedTypes} {P : ProblemType}.
Implicit Types (s : SolverState.state) (o : ostream SolverState.printed).
Implicit Types (m : SolverState.parameters_t).
Implicit Types (kps : list (string * SolverState.StateParameter)).

Lemma print_parameter_items o it :
  SolverState.print_parameter o it = o ++ SolverState.parameter_items it.
Proof.
  unfold SolverState.print_parameter, SolverState.parameter_items, shl.
  repeat rewrite <- app_assoc. reflexivity.
Qed.

(** The loop inserts the parameters one after the other, in the order of
    the iteration. *)
Lemma print_loop m o :
  fold_left SolverState.print_parameter m o
  = o ++ flat_map SolverState.parameter_items m.
Proof.
  revert o. induction m as [|it m IH]; intro o; simpl.
  - rewrite app_nil_r. reflexivity.
  - rewrite IH, print_parameter_items, <- app_assoc. reflexivity.
Qed.

(** The parameter lines of the loop's output are the keys, in order. *)
Lemma parameter_lines_loop m o :
  SolverState.parameter_lines (flat_map SolverState.parameter_items m ++ o)
  = StdMap.keys m ++ SolverState.parameter_lines o.
Proof.
  induction m as [|[k p] m IH]; simpl; [reflexivity|].
  rewrite IH. reflexivity.
Qed.

(** [print] lists the parameters in the order of the container. *)
Lemma parameter_lines_print s :
  SolverState.parameter_lines (SolverState.print s [])
  = StdMap.keys (SolverState.parameters s).
Proof.
  unfold SolverState.print, SolverState.parameters, shl.
  destruct s as [xs c cv m]; simpl.
  destruct m as [|it m]; simpl.
  - destruct c, cv; reflexivity.
  - rewrite print_loop, print_parameter_items.
    destruct it as [k p].
    destruct c, cv; simpl; repeat rewrite <- app_assoc; simpl;
      rewrite parameter_lines_loop; simpl; rewrite app_nil_r; reflexivity.
Qed.

Lemma parameters_store k p s :
  SolverState.parameters (SolverState.store k p s)
  = StdMap.subscript_assign k p (SolverState.parameters s).
Proof. reflexivity. Qed.

Lemma store_all_snoc kps k p s :
  SolverState.store_all (kps ++ [(k, p)]) s
  = SolverState.store k p (SolverState.store_all kps s).
Proof.
  unfold SolverState.store_all. rewrite fold_left_app. reflexivity.
Qed.

(** Stores keep the keys in ascending order. *)
Lemma ordered_store_all kps s :
  StdMap.ordered (SolverState.parameters s) ->
  StdMap.ordered (SolverState.parameters (SolverState.store_all kps s)).
Proof.
  revert s. induction kps as [|[k p] kps IH]; intros s Hs; simpl.
  - exact Hs.
  - apply IH. rewrite parameters_store.
    apply ordered_subscript_assign. exact Hs.
Qed.

(** A search finds the parameter stored last under the key. *)
Lemma find_store_all kps s k :
  StdMap.find k (SolverState.parameters (SolverState.store_all kps s))
  = match SolverState.last_stored k kps with
    | Some p => Some (k, p)
    | None => StdMap.find k (SolverState.parameters s)
    end.
Proof.
  revert s. induction kps as [|[k' p'] kps IH]; intro s; simpl.
  - reflexivity.
  - rewrite IH. destruct (SolverState.last_stored k kps); [reflexivity|].
    rewrite parameters_store.
    destruct (String.eqb_spec k k') as [->|Hne].
    + apply find_subscript_assign_same.
    + apply find_subscript_assign_other. exact Hne.
Qed.

End PrintOrder.

(** *** The parameter store at work *)

Section ParameterStoreExamples.
Import Examples.

(** The inserting access [parameters_[key]], which [getParameter] does not
    use, would leave a missing key in the parameters. *)
Example inserting_access_changes_parameters :
  StdMap.find "tolerance" (SolverState.parameters status_then_iterations) = None
  /\ StdMap.keys
       (snd (StdMap.subscript iterations "tolerance"
               (SolverState.parameters status_then_iterations)))
     = ["iterations"%string; "status"%string; "tolerance"%string]
  /\ StdMap.keys
       (SolverState.parameters
          (snd (SolverState.getParameter type_int "tolerance"
                  status_then_iterations)))
     = ["iterations"%string; "status"%string].
Proof. repeat split; reflexivity. Qed.

(** C4, evaluated. ["iterations"] holds an [int]; asking for it as a
    [std::string] ends in [std::unexpected ()] in both members, and no
    exception reaches the caller. *)
Lemma getParameter_of_another_type_is_unexpected :
  SolverState.getParameter_const type_string "iterations" status_then_iterations
  = Unexpected boost_bad_get
  /\ fst (SolverState.getParameter type_string "iterations" status_then_iterations)
     = Unexpected boost_bad_get
  /\ SolverState.getParameter_const type_int "iterations" status_then_iterations
     = Returned 42%Z
  /\ SolverState.getParameter_const type_int "tolerance" status_then_iterations
     = Thrown (std_out_of_range "key tolerance not found").
Proof. repeat split; reflexivity. Qed.

(** The constructor at a problem of input size 2. *)
Lemma SolverState_constructor_witness :
  length (SolverState.x (SolverState.SolverState (fun _ => 7%Z) 2)) = 2
  /\ SolverState.x (SolverState.SolverState (fun _ => 7%Z) 2) = [0%Z; 0%Z]
  /\ SolverState.cost (SolverState.SolverState (fun _ => 7%Z) 2) = None
  /\ SolverState.constraintViolation (SolverState.SolverState (fun _ => 7%Z) 2)
     = None
  /\ SolverState.cost
       (SolverState.set_cost (Some 0%Z) (SolverState.SolverState (fun _ => 7%Z) 2))
     = Some 0%Z
  /\ SolverState.constraintViolation
       (SolverState.set_constraintViolation (Some 0%Z)
          (SolverState.SolverState (fun _ => 7%Z) 2))
     = Some 0%Z.
Proof.
  exact (SolverState_constructor_zero_iterate_no_cost
           (V := Z_scalar) (B := example_types) (P := example_problem)
           (fun _ => 7%Z) 2).
Defined.

(** [getParameter] at a missing key of the state above. *)
Lemma getParameter_frame_witness :
  snd (SolverState.getParameter type_int "tolerance" status_then_iterations)
  = status_then_iterations
  /\ fst (SolverState.getParameter type_int "tolerance" status_then_iterations)
     = Thrown (SolverState.key_not_found "tolerance").
Proof.
  pose proof (getParameter_does_not_change_parameters
                type_int "tolerance" status_then_iterations) as H.
  destruct H as (H1 & _ & _ & H4).
  split; [exact H1|].
  destruct (H4 eq_refl) as (H5 & _). exact H5.
Defined.

End ParameterStoreExamples.

(** *** Exception specifications *)

Section ExceptionSpecifications.
Variable A : Type.

(** Nothing is thrown to the caller of a function declared [throw ()]. *)
Lemma throw_nothing_never_throws (body : outcome A) (e : exception) :
  exception_specification throw_nothing body <> Thrown e.
Proof. destruct body; simpl; discriminate. Qed.

(** What such a function does is return, or end in [std::unexpected ()]. *)
Lemma throw_nothing_returns_or_unexpected (body : outcome A) :
  (exists a, exception_specification throw_nothing body = Returned a)
  \/ (exists e, exception_specification throw_nothing body = Unexpected e).
Proof. destruct body; simpl; eauto. Qed.

(** An exception raised in the body ends in [std::unexpected ()]. *)
Lemma throw_nothing_Thrown (e : exception) :
  exception_specification throw_nothing (@Thrown A e) = Unexpected e.
Proof. reflexivity. Qed.

End ExceptionSpecifications.

(** *** The hessian of a linear function *)

Section Hessian.
Context {V : Scalar}.
Implicit Types (f : LinearFunction.object) (x : vector_t) (i : Z).

Lemma length_zero_matrix (r c : nat) : length (zero_matrix r c) = r.
Proof. apply repeat_length. Qed.

(** Every coefficient of the zero matrix is zero. *)
Lemma coefficient_zero_matrix (r c i j : nat) :
  NumericLinearFunction.coefficient (zero_matrix r c) i j = zero.
Proof.
  unfold NumericLinearFunction.coefficient, zero_matrix, matrix_t, vector_t.
  destruct (Nat.lt_ge_cases i r) as [Hi|Hi].
  - rewrite nth_repeat_lt by exact Hi.
    destruct (Nat.lt_ge_cases j c) as [Hj|Hj].
    + apply nth_repeat_lt. exact Hj.
    + apply nth_overflow. rewrite repeat_length. exact Hj.
  - assert (E : nth i (repeat (repeat zero c) r) [] = []).
    { apply nth_overflow. rewrite repeat_length. exact Hi. }
    rewrite E. destruct j; reflexivity.
Qed.

(** A class that declares no [hessian] has the one of [LinearFunction]. *)
Lemma hessian_inherited f x i :
  LinearFunction.own_hessian f = None ->
  LinearFunction.hessian f x i
  = Returned (zero_matrix (LinearFunction.n f) (LinearFunction.n f)).
Proof.
  unfold LinearFunction.hessian. intros ->. reflexivity.
Qed.

(** A class that declares one has its own. *)
Lemma hessian_overridden f x i h :
  LinearFunction.own_hessian f = Some h ->
  LinearFunction.hessian f x i = exception_specification throw_nothing (h x i).
Proof.
  unfold LinearFunction.hessian. intros ->. reflexivity.
Qed.

(** C2 (amended). [LinearFunction::hessian] is the [n] x [n] matrix of
    zeros for every [x] and every [i], and a class derived from
    [LinearFunction] that declares no [hessian] of its own, as
    [NumericLinearFunction], has exactly that one, whatever its
    [operator ()], [gradient] and [jacobian] are. The member is virtual: a
    derived class that declares it again is the one called. *)
Theorem hessian_is_zero_unless_redeclared f x i :
  LinearFunction.hessian_body (LinearFunction.n f) x i
  = Returned (zero_matrix (LinearFunction.n f) (LinearFunction.n f))
  /\ (LinearFunction.own_hessian f = None ->
      LinearFunction.hessian f x i
      = Returned (zero_matrix (LinearFunction.n f) (LinearFunction.n f)))
  /\ (forall h, LinearFunction.own_hessian f = Some h ->
      LinearFunction.hessian f x i
      = exception_specification throw_nothing (h x i))
  /\ (forall r c,
      NumericLinearFunction.coefficient
        (zero_matrix (LinearFunction.n f) (LinearFunction.n f)) r c = zero)
  /\ (forall a b,
      LinearFunction.hessian (NumericLinearFunction.NumericLinearFunction a b) x i
      = Returned (zero_matrix (cols a) (cols a))).
Proof.
  split; [reflexivity|].
  split; [apply hessian_inherited|].
  split; [intros h; apply hessian_overridden|].
  split; [intros r c; apply coefficient_zero_matrix|].
  intros a b. reflexivity.
Qed.

End Hessian.

(** *** [NumericLinearFunction] *)

Section NumericLinear.
Context {V : Scalar}.
Implicit Types (a : matrix_t) (b x row : vector_t) (i : Z).

Lemma sigma_ext (n : nat) (f g : nat -> value_type) :
  (forall j, j < n -> f j = g j) ->
  NumericLinearFunction.sigma n f = NumericLinearFunction.sigma n g.
Proof.
  induction n as [|n IH]; intro H; simpl; [reflexivity|].
  rewrite IH, H; auto.
Qed.

Lemma combine_app_same_length (A B : Type) (l1 l2 : list A) (k1 k2 : list B) :
  length l1 = length k1 ->
  combine (l1 ++ l2) (k1 ++ k2) = combine l1 k1 ++ combine l2 k2.
Proof.
  revert k1. induction l1 as [|h l1 IH]; intros [|h' k1] H; simpl in *;
    try discriminate; [reflexivity|].
  rewrite IH by congruence. reflexivity.
Qed.

Lemma last_split (A : Type) (l : list A) (n : nat) :
  length l = S n -> exists l' c, l = l' ++ [c] /\ length l' = n.
Proof.
  intro H. destruct (exists_last (l := l)) as (l' & c & ->).
  - intro; subst; discriminate.
  - exists l', c. split; [reflexivity|].
    rewrite length_app in H. simpl in H. lia.
Qed.

(** The product of a row and a vector is the sum of the products of their
    coefficients, in the order of the indices. *)
Lemma inner_prod_sigma row x :
  length row = length x ->
  NumericLinearFunction.inner_prod row x
  = NumericLinearFunction.sigma (length x)
      (fun j => times (nth j row zero) (nth j x zero)).
Proof.
  revert row. induction x as [|c x' IH] using rev_ind; intros row H.
  - destruct row; [reflexivity|discriminate].
  - rewrite length_app in H. simpl in H. rewrite Nat.add_1_r in H.
    destruct (last_split row H) as (row' & r & -> & Hlen).
    unfold NumericLinearFunction.inner_prod in *.
    rewrite combine_app_same_length by exact Hlen.
    rewrite fold_left_app. simpl.
    rewrite (IH row' Hlen).
    rewrite length_app. simpl. rewrite Nat.add_1_r. simpl.
    rewrite (app_nth2 row' [r] zero) by lia.
    rewrite (app_nth2 x' [c] zero) by lia.
    rewrite Hlen, Nat.sub_diag. simpl.
    f_equal. apply sigma_ext. intros j Hj.
    rewrite (app_nth1 row' [r] zero) by lia.
    rewrite (app_nth1 x' [c] zero) by lia.
    reflexivity.
Qed.

Lemma length_prod a x : length (NumericLinearFunction.prod a x) = length a.
Proof. apply length_map. Qed.

Lemma length_vector_plus (u v : vector_t) :
  length u = length v ->
  length (NumericLinearFunction.vector_plus u v) = length u.
Proof.
  intro H. unfold NumericLinearFunction.vector_plus.
  rewrite length_map, length_combine, H. apply Nat.min_id.
Qed.

Lemma nth_vector_plus (u v : vector_t) (k : nat) :
  length u = length v -> k < length u ->
  nth k (NumericLinearFunction.vector_plus u v) zero
  = plus (nth k u zero) (nth k v zero).
Proof.
  intros H Hk. unfold NumericLinearFunction.vector_plus.
  rewrite (nth_indep _ zero (plus (fst (zero, zero)) (snd (zero, zero)))).
  - rewrite (map_nth (fun p => plus (fst p) (snd p))).
    rewrite combine_nth by exact H. reflexivity.
  - rewrite length_map, length_combine, H, Nat.min_id. rewrite <- H. exact Hk.
Qed.

Lemma nth_prod a x (k : nat) :
  k < length a ->
  nth k (NumericLinearFunction.prod a x) zero
  = NumericLinearFunction.inner_prod (nth k a []) x.
Proof.
  intro Hk. unfold NumericLinearFunction.prod.
  rewrite (nth_indep _ zero (NumericLinearFunction.inner_prod [] x)).
  - apply (map_nth (fun row => NumericLinearFunction.inner_prod row x)).
  - rewrite length_map. exact Hk.
Qed.

(** Coefficient [k] of [a * x + b] in a well-formed setting. *)
Lemma nth_affine a b x (k : nat) :
  NumericLinearFunction.well_formed a ->
  length b = rows a -> length x = cols a -> k < rows a ->
  nth k (NumericLinearFunction.vector_plus (NumericLinearFunction.prod a x) b) zero
  = NumericLinearFunction.affine a b x k.
Proof.
  intros Hwf Hb Hx Hk. unfold rows in *.
  rewrite nth_vector_plus.
  - rewrite nth_prod by exact Hk.
    unfold NumericLinearFunction.affine, NumericLinearFunction.coefficient.
    rewrite inner_prod_sigma; [reflexivity|].
    rewrite Hx. unfold NumericLinearFunction.well_formed in Hwf.
    rewrite Forall_forall in Hwf. apply Hwf. apply nth_In. exact Hk.
  - rewrite length_prod. symmetry. exact Hb.
  - rewrite length_prod. exact Hk.
Qed.

(** C3. For a well-formed [m] x [n] matrix [A], a vector [b] of length [m]
    and an argument [x] of length [n], the object built by
    [NumericLinearFunction (A, b)] evaluates to a vector of length [m] whose
    coefficient [k] is the sum over [j] of [A (k, j) * x (j)], plus [b (k)];
    its gradient at an output index [i] in range is row [i] of [A], and its
    jacobian is [A], whose row [i] is that gradient. Its hessian is the
    [n] x [n] matrix of zeros for every argument and every index, whatever
    [A] and [b]. The members are functions of [A], [b] and their arguments
    alone: nothing of an earlier call is kept. *)
Theorem NumericLinearFunction_is_affine a b x :
  (NumericLinearFunction.well_formed a ->
   length b = rows a ->
   length x = cols a ->
   (exists y,
       LinearFunction.call_ (NumericLinearFunction.NumericLinearFunction a b) x
       = Returned y
       /\ length y = rows a
       /\ forall k, k < rows a ->
            nth k y zero = NumericLinearFunction.affine a b x k)
   /\ (forall i, (0 <= i < Z.of_nat (rows a))%Z ->
         LinearFunction.gradient_
           (NumericLinearFunction.NumericLinearFunction a b) x i
         = Returned (nth (Z.to_nat i) a []))
   /\ LinearFunction.jacobian_ (NumericLinearFunction.NumericLinearFunction a b) x
      = Returned a)
  /\ (forall i,
        LinearFunction.hessian (NumericLinearFunction.NumericLinearFunction a b) x i
        = Returned (zero_matrix (cols a) (cols a)))
  /\ (forall r c,
        NumericLinearFunction.coefficient (zero_matrix (cols a) (cols a)) r c
        = zero)
  /\ LinearFunction.n (NumericLinearFunction.NumericLinearFunction a b) = cols a
  /\ LinearFunction.m (NumericLinearFunction.NumericLinearFunction a b) = rows a.
Proof.
  split; [|split; [|split; [|split]]]; try reflexivity.
  - intros Hwf Hb Hx.
    assert (Hsize : Nat.eqb (length x)
                      (NumericLinearFunction.input_size
                         {| NumericLinearFunction.a_ := a;
                            NumericLinearFunction.b_ := b |}) = true).
    { apply Nat.eqb_eq. exact Hx. }
    split; [|split].
    + eexists. split; [|split].
      * simpl. unfold NumericLinearFunction.call, NumericLinearFunction.call_body.
        rewrite Hsize. reflexivity.
      * simpl. rewrite length_vector_plus; rewrite length_prod; auto.
      * intros k Hk. simpl. apply nth_affine; assumption.
    + intros i Hi. simpl.
      unfold NumericLinearFunction.gradient, NumericLinearFunction.gradient_body.
      rewrite Hsize. unfold NumericLinearFunction.valid_index,
        NumericLinearFunction.output_size. simpl.
      replace (0 <=? i)%Z with true by (symmetry; apply Z.leb_le; lia).
      replace (i <? Z.of_nat (rows a))%Z with true
        by (symmetry; apply Z.ltb_lt; lia).
      reflexivity.
    + simpl. unfold NumericLinearFunction.jacobian,
        NumericLinearFunction.jacobian_body.
      rewrite Hsize. reflexivity.
  - intros r c. apply coefficient_zero_matrix.
Qed.

(** C9 (amended). The members that the headers declare,
    [LinearFunction::hessian] with its overriders and
    [NumericLinearFunction]'s [operator ()], [gradient] and [jacobian], are
    declared [throw ()]: whatever the length of the argument and whatever
    the output index, no exception, [std::out_of_range] included, reaches
    their caller; an exception that their body raises ends in
    [std::unexpected ()]. *)
Theorem declared_throw_nothing_no_OutOfRange_reaches_caller
  (f : LinearFunction.object) (g : NumericLinearFunction.members)
  x i (e : exception) :
  LinearFunction.hessian f x i <> Thrown e
  /\ NumericLinearFunction.call g x <> Thrown e
  /\ NumericLinearFunction.gradient g x i <> Thrown e
  /\ NumericLinearFunction.jacobian g x <> Thrown e
  /\ (NumericLinearFunction.call_body g x = Thrown e ->
      NumericLinearFunction.call g x = Unexpected e)
  /\ (NumericLinearFunction.gradient_body g x i = Thrown e ->
      NumericLinearFunction.gradient g x i = Unexpected e)
  /\ (NumericLinearFunction.jacobian_body g x = Thrown e ->
      NumericLinearFunction.jacobian g x = Unexpected e)
  /\ (forall h, LinearFunction.own_hessian f = Some h -> h x i = Thrown e ->
      LinearFunction.hessian f x i = Unexpected e).
Proof.
  repeat split; try apply throw_nothing_never_throws.
  - unfold NumericLinearFunction.call. intros ->. reflexivity.
  - unfold NumericLinearFunction.gradient. intros ->. reflexivity.
  - unfold NumericLinearFunction.jacobian. intros ->. reflexivity.
  - unfold LinearFunction.hessian. intros h -> ->. reflexivity.
Qed.

End NumericLinear.

(** *** The life cycle of a solver *)

Section SolverLifeCycle.
Context {V : Scalar} {P : ProblemType}.
Variable bridge : Solver.Bridge.
Implicit Types (s : Solver.solver bridge) (r : result_t) (k : nat).
Implicit Types (cs : list Solver.call).

(** A cached result is handed out as it is, and nothing else changes. *)
Lemma getMinimum_cached s :
  which (Solver.result_ s) <> SOLVER_NO_SOLUTION ->
  Solver.getMinimum s = Solver.Minimum s (Solver.result_ s).
Proof.
  unfold Solver.getMinimum. destruct (which (Solver.result_ s));
    [contradiction|reflexivity..].
Qed.

(** Without one, [solve ()] has run when [getMinimum ()] is over. *)
Lemma getMinimum_solves s :
  which (Solver.result_ s) = SOLVER_NO_SOLUTION ->
  Solver.after (Solver.getMinimum s) = Solver.solve s.
Proof.
  unfold Solver.getMinimum. intros ->.
  destruct (which (Solver.result_ (Solver.solve s))); reflexivity.
Qed.

(** What is handed out is the cached result, and it is not [NoSolution]. *)
Lemma getMinimum_Minimum s s' r :
  Solver.getMinimum s = Solver.Minimum s' r ->
  Solver.result_ s' = r /\ which r <> SOLVER_NO_SOLUTION.
Proof.
  unfold Solver.getMinimum.
  destruct (which (Solver.result_ s)) eqn:E.
  - destruct (which (Solver.result_ (Solver.solve s))) eqn:E';
      intro H; inversion H; subst; split; congruence.
  - intro H; inversion H; subst; split; congruence.
  - intro H; inversion H; subst; split; congruence.
  - intro H; inversion H; subst; split; congruence.
Qed.

(** With a result cached, [k] calls hand it out [k] times and leave the
    solver as it is. *)
Lemma getMinimum_times_cached k s :
  which (Solver.result_ s) <> SOLVER_NO_SOLUTION ->
  Solver.getMinimum_times k s = (repeat (Solver.result_ s) k, s).
Proof.
  intro H. induction k as [|k IH]; simpl; [reflexivity|].
  rewrite (getMinimum_cached _ H), IH. reflexivity.
Qed.

(** Any number of calls in a row runs [solve ()] once at most. *)
Lemma getMinimum_times_solve_calls k s :
  Solver.solve_calls (snd (Solver.getMinimum_times k s))
  <= S (Solver.solve_calls s).
Proof.
  destruct k as [|k]; simpl; [lia|].
  destruct (Solver.getMinimum s) as [s' r|s'] eqn:E.
  - destruct (getMinimum_Minimum _ E) as [Hr Hw]. subst r.
    rewrite (getMinimum_times_cached k _ Hw). simpl.
    destruct (which (Solver.result_ s)) eqn:Ew.
    + pose proof (getMinimum_solves _ Ew) as Ha. rewrite E in Ha. simpl in Ha.
      subst s'. simpl. lia.
    + rewrite getMinimum_cached in E by congruence. inversion E; subst. lia.
    + rewrite getMinimum_cached in E by congruence. inversion E; subst. lia.
    + rewrite getMinimum_cached in E by congruence. inversion E; subst. lia.
  - simpl. destruct (which (Solver.result_ s)) eqn:Ew.
    + pose proof (getMinimum_solves _ Ew) as Ha. rewrite E in Ha. simpl in Ha.
      subst s'. simpl. lia.
    + rewrite getMinimum_cached in E by congruence. discriminate.
    + rewrite getMinimum_cached in E by congruence. discriminate.
    + rewrite getMinimum_cached in E by congruence. discriminate.
Qed.

(** When [solve ()] fills [result_] as a bridge has to, the result it
    produced is the one handed out. *)
Lemma getMinimum_fresh s :
  which (Solver.result_ s) = SOLVER_NO_SOLUTION ->
  which (Solver.result_ (Solver.solve s)) <> SOLVER_NO_SOLUTION ->
  Solver.getMinimum s
  = Solver.Minimum (Solver.solve s) (Solver.result_ (Solver.solve s)).
Proof.
  unfold Solver.getMinimum. intros -> H.
  destruct (which (Solver.result_ (Solver.solve s)));
    [contradiction|reflexivity..].
Qed.

(** C1. A solver is constructed, and left by [reset ()], with [NoSolution]
    cached. With [NoSolution] cached, [getMinimum ()] runs [solve ()]
    exactly once and caches what it produced, which is what it hands out
    when [solve ()] filled [result_] as it has to; once a result has been
    handed out, every further call hands out the same result and leaves the
    solver, its count of [solve ()] runs included, as it is; so any number
    of calls without a [reset ()] runs [solve ()] once at most. After
    [reset ()], the next call runs [solve ()] exactly once more. *)
Theorem getMinimum_solves_once_until_reset s (pb : problem_t)
  (b0 : Solver.bridge_t bridge) :
  which (Solver.result_ (Solver.Solver bridge pb b0)) = SOLVER_NO_SOLUTION
  /\ which (Solver.result_ (Solver.reset s)) = SOLVER_NO_SOLUTION
  /\ (which (Solver.result_ s) = SOLVER_NO_SOLUTION ->
      Solver.after (Solver.getMinimum s) = Solver.solve s
      /\ Solver.solve_calls (Solver.after (Solver.getMinimum s))
         = S (Solver.solve_calls s)
      /\ (which (Solver.result_ (Solver.solve s)) <> SOLVER_NO_SOLUTION ->
          Solver.getMinimum s
          = Solver.Minimum (Solver.solve s)
              (Solver.result_ (Solver.solve s))))
  /\ (forall s1 r, Solver.getMinimum s = Solver.Minimum s1 r ->
      Solver.result_ s1 = r
      /\ forall k, Solver.getMinimum_times k s1 = (repeat r k, s1))
  /\ (forall k,
      Solver.solve_calls (snd (Solver.getMinimum_times k s))
      <= S (Solver.solve_calls s))
  /\ Solver.solve_calls (Solver.after (Solver.getMinimum (Solver.reset s)))
     = S (Solver.solve_calls s).
Proof.
  split; [reflexivity|]. split; [reflexivity|].
  split; [|split; [|split]].
  - intro H. rewrite (getMinimum_solves _ H).
    split; [reflexivity|]. split; [reflexivity|].
    apply getMinimum_fresh. exact H.
  - intros s1 r H. destruct (getMinimum_Minimum _ H) as [Hr Hw].
    split; [exact Hr|]. intro k. subst r.
    apply getMinimum_times_cached. exact Hw.
  - intro k. apply getMinimum_times_solve_calls.
  - rewrite getMinimum_solves by reflexivity. reflexivity.
Qed.

(** One call of the solver keeps [problem_]. *)
Lemma step_problem (c : Solver.call) s :
  Solver.problem_ (snd (Solver.step c s)) = Solver.problem_ s.
Proof.
  destruct c; simpl; try reflexivity.
  unfold Solver.getMinimum.
  destruct (which (Solver.result_ s)); try reflexivity.
  destruct (which (Solver.result_ (Solver.solve s))); reflexivity.
Qed.

(** What one call shows of the problem is [problem_]. *)
Lemma step_shows_problem (c : Solver.call) s (p : problem_t) :
  Solver.problem_shown (fst (Solver.step c s)) = Some p ->
  p = Solver.problem_ s.
Proof.
  destruct c; simpl; try discriminate.
  - intro H; inversion H; reflexivity.
  - unfold Solver.print, shl. simpl. intro H; inversion H; reflexivity.
  - destruct (Solver.getMinimum s); simpl; discriminate.
Qed.

Lemma run_problem cs s :
  Solver.problem_ (snd (Solver.run cs s)) = Solver.problem_ s
  /\ forall sh p, In sh (fst (Solver.run cs s)) ->
       Solver.problem_shown sh = Some p -> p = Solver.problem_ s.
Proof.
  revert s. induction cs as [|c cs IH]; intro s; simpl.
  - split; [reflexivity|]. intros sh p [].
  - destruct (IH (snd (Solver.step c s))) as [IH1 IH2].
    rewrite step_problem in IH1, IH2.
    pose proof (@step_shows_problem c s) as Hc.
    destruct (fst (Solver.step c s)) eqn:E; simpl;
      (split; [try exact IH1; apply step_problem|]);
      intros sh p [<-|Hin] Hp; eauto; try (apply Hc; exact Hp);
      try contradiction.
Qed.

(** C7. The problem a solver is constructed with is the problem it keeps:
    after any sequence of calls of [problem ()], [print ()], [solve ()],
    [getMinimum ()] and [reset ()], [problem ()] is the problem given to
    the constructor (its broadened copy for the converting constructor),
    and every [problem ()] and [print ()] on the way showed that very
    problem. *)
Theorem problem_is_fixed_at_construction (pb : problem_t)
  (b0 : Solver.bridge_t bridge) cs :
  Solver.problem (Solver.Solver bridge pb b0) = pb
  /\ Solver.problem (snd (Solver.run cs (Solver.Solver bridge pb b0))) = pb
  /\ (forall sh p,
        In sh (fst (Solver.run cs (Solver.Solver bridge pb b0))) ->
        Solver.problem_shown sh = Some p -> p = pb)
  /\ (forall (Q : Type) (broaden : Q -> problem_t) (q : Q),
        Solver.problem
          (snd (Solver.run cs (Solver.Solver_of bridge broaden q b0)))
        = broaden q).
Proof.
  split; [reflexivity|].
  destruct (run_problem cs (Solver.Solver bridge pb b0)) as [H1 H2].
  split; [exact H1|]. split; [exact H2|].
  intros Q broaden q.
  destruct (run_problem cs (Solver.Solver_of bridge broaden q b0)) as [H3 _].
  exact H3.
Qed.

(** Every result that a sequence of calls hands out has a tag other than
    [NoSolution]. *)
Lemma run_never_shows_NoSolution cs s r :
  In (Solver.shown_minimum r) (fst (Solver.run cs s)) ->
  which r <> SOLVER_NO_SOLUTION.
Proof.
  revert s. induction cs as [|c cs IH]; intro s; simpl; [intros []|].
  destruct (fst (Solver.step c s)) eqn:E; simpl;
    try (intros [H|H]; [discriminate H|exact (IH _ H)]).
  - intros [H|H]; [|exact (IH _ H)].
    inversion H; subst. destruct c; simpl in E; try discriminate.
    destruct (Solver.getMinimum s) as [s' r'|s'] eqn:Eg; simpl in E;
      [|discriminate].
    inversion E; subst. exact (proj2 (getMinimum_Minimum _ Eg)).
  - intros [H|[]]. discriminate H.
Qed.

(** C5. Whatever the bridge does, a result that [getMinimum ()] hands to
    its caller does not have the tag [NoSolution], be it cached or fresh
    from [solve ()], alone or within any sequence of calls; when [solve ()]
    leaves [NoSolution] behind, the call ends in the detection of the
    contract violation. *)
Theorem getMinimum_never_hands_out_NoSolution s s' r :
  Solver.getMinimum s = Solver.Minimum s' r ->
  which r <> SOLVER_NO_SOLUTION
  /\ (forall cs r', In (Solver.shown_minimum r') (fst (Solver.run cs s)) ->
        which r' <> SOLVER_NO_SOLUTION)
  /\ (forall s0,
        which (Solver.result_ s0) = SOLVER_NO_SOLUTION ->
        which (Solver.result_ (Solver.solve s0)) = SOLVER_NO_SOLUTION ->
        Solver.getMinimum s0 = Solver.ContractViolation (Solver.solve s0)).
Proof.
  intro H. split; [exact (proj2 (getMinimum_Minimum _ H))|].
  split; [intros cs r'; apply run_never_shows_NoSolution|].
  intros s0 H0 H1. unfold Solver.getMinimum. rewrite H0, H1. reflexivity.
Qed.

End SolverLifeCycle.

(** *** The functions and the solver at work *)

Section HierarchyAndSolverExamples.
Import Examples.

(** C2, counterexample. [WithOwnHessian] derives from [LinearFunction] and
    declares a [hessian] of its own: a call of [hessian] on it runs that
    one, and the result is not the matrix of zeros. *)
Lemma derived_class_can_substitute_hessian :
  LinearFunction.hessian WithOwnHessian [5%Z] 0%Z = Returned [[2%Z]]
  /\ LinearFunction.hessian WithOwnHessian [5%Z] 0%Z
     <> Returned (zero_matrix 1 1).
Proof. split; [reflexivity|discriminate]. Qed.

(** The hessian of x |-> 2 x0 + 3 x1 + 1, which declares none. *)
Lemma hessian_witness :
  LinearFunction.hessian two_three_plus_one [4%Z; 5%Z] 0%Z
  = Returned [[0%Z; 0%Z]; [0%Z; 0%Z]].
Proof.
  destruct (hessian_is_zero_unless_redeclared
              two_three_plus_one [4%Z; 5%Z] 0%Z) as (_ & H & _).
  exact (H eq_refl).
Defined.

(** x |-> 2 x0 + 3 x1 + 1 at (4, 5): the value 24, the gradient (2 3), the
    jacobian ((2 3)). *)
Lemma NumericLinearFunction_witness :
  LinearFunction.call_ two_three_plus_one [4%Z; 5%Z] = Returned [24%Z]
  /\ LinearFunction.gradient_ two_three_plus_one [4%Z; 5%Z] 0%Z
     = Returned [2%Z; 3%Z]
  /\ LinearFunction.jacobian_ two_three_plus_one [4%Z; 5%Z]
     = Returned [[2%Z; 3%Z]].
Proof.
  assert (Hwf : NumericLinearFunction.well_formed [[2%Z; 3%Z]]).
  { repeat constructor. }
  destruct (NumericLinearFunction_is_affine
              (V := Z_scalar) [[2%Z; 3%Z]] [1%Z] [4%Z; 5%Z]) as (H & _).
  destruct (H Hwf eq_refl eq_refl) as ((y & Hy & Hlen & Hk) & Hg & Hj).
  unfold two_three_plus_one.
  split; [|split].
  - rewrite Hy. f_equal.
    destruct y as [|c [|c' y]]; try discriminate Hlen.
    f_equal. exact (Hk 0 (Nat.lt_0_succ 0)).
  - apply Hg. simpl. lia.
  - exact Hj.
Defined.

(** C9, counterexample. x |-> 2 x0 + 3 x1 + 1 takes two coefficients and
    has one output. Called with one coefficient, or asked for the gradient
    of output 5, the body raises the exception of a dimension mismatch, and
    the member, declared [throw ()], ends in [std::unexpected ()]: no
    [OutOfRange] reaches the caller. No class derived from
    [LinearFunction], whatever its [hessian] does, throws one to the caller
    of [hessian] either. *)
Lemma dimension_mismatch_does_not_reach_caller :
  LinearFunction.call_ two_three_plus_one [4%Z]
  = Unexpected NumericLinearFunction.dimension_mismatch
  /\ LinearFunction.gradient_ two_three_plus_one [4%Z; 5%Z] 5%Z
     = Unexpected NumericLinearFunction.dimension_mismatch
  /\ ~ (exists what,
          LinearFunction.call_ two_three_plus_one [4%Z]
          = Thrown (std_out_of_range what))
  /\ ~ (exists what,
          LinearFunction.gradient_ two_three_plus_one [4%Z; 5%Z] 5%Z
          = Thrown (std_out_of_range what))
  /\ ~ (exists (f : LinearFunction.object) what,
          LinearFunction.n f = 2
          /\ LinearFunction.hessian f [4%Z] 0%Z
             = Thrown (std_out_of_range what)).
Proof.
  split; [reflexivity|]. split; [reflexivity|].
  split; [intros (what & H); discriminate H|].
  split; [intros (what & H); discriminate H|].
  intros (f & what & _ & H).
  eapply throw_nothing_never_throws. exact H.
Qed.

(** The body of [operator ()] raises on an argument of one coefficient, and
    the call ends in [std::unexpected ()]. *)
Lemma throw_nothing_witness :
  NumericLinearFunction.call two_three_plus_one_members [4%Z]
  = Unexpected NumericLinearFunction.dimension_mismatch.
Proof.
  destruct (declared_throw_nothing_no_OutOfRange_reaches_caller
              two_three_plus_one two_three_plus_one_members
              [4%Z] 0%Z NumericLinearFunction.dimension_mismatch)
    as (_ & _ & _ & _ & H & _).
  exact (H eq_refl).
Defined.

(** The stub bridge: three more calls after the first hand out the same
    result, and [solve ()] has run once. *)
Lemma getMinimum_witness :
  Solver.solve_calls
    (Solver.after (Solver.getMinimum (Solver.Solver stub_bridge 2 0))) = 1
  /\ Solver.getMinimum_times 3
       (Solver.solve (Solver.Solver stub_bridge 2 0))
     = (repeat (Solver.result_ (Solver.solve (Solver.Solver stub_bridge 2 0))) 3,
        Solver.solve (Solver.Solver stub_bridge 2 0))
  /\ Solver.solve_calls
       (snd (Solver.getMinimum_times 4 (Solver.Solver stub_bridge 2 0))) <= 1.
Proof.
  destruct (getMinimum_solves_once_until_reset
              (Solver.Solver stub_bridge 2 0) 2 0)
    as (_ & _ & H3 & H4 & H5 & _).
  split; [exact (proj1 (proj2 (H3 eq_refl)))|].
  split; [|exact (H5 4)].
  exact (proj2 (H4 _ _ eq_refl) 3).
Defined.

(** The stub bridge: what [getMinimum ()] hands out is a [Result]. *)
Lemma getMinimum_tag_witness :
  which (Solver.result_ (Solver.solve (Solver.Solver stub_bridge 2 0)))
  <> SOLVER_NO_SOLUTION.
Proof.
  exact (proj1 (getMinimum_never_hands_out_NoSolution
                  (Solver.Solver stub_bridge 2 0) eq_refl)).
Defined.

(** The idle bridge leaves [NoSolution] behind: nothing is handed out, and
    a second call would run [solve ()] again. *)
Lemma idle_bridge_is_detected :
  Solver.getMinimum (Solver.Solver idle_bridge 2 tt)
  = Solver.ContractViolation (Solver.solve (Solver.Solver idle_bridge 2 tt))
  /\ Solver.getMinimum_times 3 (Solver.Solver idle_bridge 2 tt)
     = ([], Solver.solve (Solver.Solver idle_bridge 2 tt)).
Proof. split; reflexivity. Qed.

(** The stub bridge through a sequence of calls: the problem stays 2. *)
Lemma problem_witness :
  Solver.problem
    (snd (Solver.run
            [Solver.call_getMinimum; Solver.call_problem; Solver.call_reset;
             Solver.call_print; Solver.call_solve; Solver.call_getMinimum]
            (Solver.Solver stub_bridge 2 0))) = 2.
Proof.
  exact (proj1 (proj2 (problem_is_fixed_at_construction stub_bridge 2 0 _))).
Defined.

End HierarchyAndSolverExamples.

(* ================================================================== *)
(** ** Part III: further properties of the sources *)
(* ================================================================== *)

(** *** The message of a missing key *)

Section KeyNotFound.

Lemma length_append (a b : string) :
  String.length (String.append a b) = String.length a + String.length b.
Proof. induction a as [|c a IH]; simpl; [reflexivity|]. rewrite IH. reflexivity. Qed.

(** A common suffix cancels. *)
Lemma append_cancel_r (s a b : string) :
  String.append a s = String.append b s -> a = b.
Proof.
  revert b. induction a as [|c a IH]; intros [|d b] H; simpl in H.
  - reflexivity.
  - exfalso. apply (f_equal String.length) in H. simpl in H.
    rewrite length_append in H. lia.
  - exfalso. apply (f_equal String.length) in H. simpl in H.
    rewrite length_append in H. lia.
  - inversion H; subst. f_equal. apply IH. assumption.
Qed.

(** The message names the key: two keys with one message are one key. *)
Lemma key_not_found_inj (k1 k2 : string) :
  SolverState.key_not_found k1 = SolverState.key_not_found k2 -> k1 = k2.
Proof.
  unfold SolverState.key_not_found. intro H. inversion H as [H'].
  apply append_cancel_r in H'. exact H'.
Qed.

End KeyNotFound.

(** *** [getParameter] and the parameters that the bridge stores *)

Section StoreAndGet.
Context {V : Scalar} {B : BoundedTypes} {P : ProblemType}.
Implicit Types (s : SolverState.state) (key : string) (T : bounded_type).

Lemma find_store_same key (p : SolverState.StateParameter) s :
  StdMap.find key (SolverState.parameters (SolverState.store key p s))
  = Some (key, p).
Proof. apply find_subscript_assign_same. Qed.

Lemma find_store_other key key' (p : SolverState.StateParameter) s :
  key' <> key ->
  StdMap.find key' (SolverState.parameters (SolverState.store key p s))
  = StdMap.find key' (SolverState.parameters s).
Proof. intro H. apply find_subscript_assign_other. exact H. Qed.

(** The outcome of [getParameter] is decided by what [find] reaches. *)
Lemma getParameter_find T key s s' :
  StdMap.find key (SolverState.parameters s)
  = StdMap.find key (SolverState.parameters s') ->
  SolverState.getParameter_const T key s
  = SolverState.getParameter_const T key s'.
Proof.
  unfold SolverState.getParameter_const, SolverState.parameters.
  intros ->. reflexivity.
Qed.

(** X1. A parameter that holds a [T], stored under a key through
    [parameters ()], is what [getParameter<T>] returns for that key
    afterwards, from both members and whatever the state held before, a
    parameter of another type under the same key included; for every
    other key and every type the outcome is what it was before the store;
    the iterate, the cost and the constraint violation are untouched. *)
Theorem getParameter_after_store T key (d : string) (c : holds T) s :
  SolverState.getParameter_const T key
    (SolverState.store key
       {| SolverState.description := d;
          SolverState.value := {| Variant.which := T; Variant.content := c |} |}
       s)
  = Returned c
  /\ fst (SolverState.getParameter T key
            (SolverState.store key
               {| SolverState.description := d;
                  SolverState.value :=
                    {| Variant.which := T; Variant.content := c |} |}
               s))
     = Returned c
  /\ (forall T' key' (p : SolverState.StateParameter),
        key' <> key ->
        SolverState.getParameter_const T' key' (SolverState.store key p s)
        = SolverState.getParameter_const T' key' s)
  /\ (forall p : SolverState.StateParameter,
        SolverState.x (SolverState.store key p s) = SolverState.x s
        /\ SolverState.cost (SolverState.store key p s) = SolverState.cost s
        /\ SolverState.constraintViolation (SolverState.store key p s)
           = SolverState.constraintViolation s).
Proof.
  assert (H : forall p : SolverState.StateParameter,
             SolverState.getParameter_const T key (SolverState.store key p s)
             = exception_specification throw_std_out_of_range
                 (Variant.get T (SolverState.value p))).
  { intro p. unfold SolverState.getParameter_const.
    change (SolverState.parameters_ (SolverState.store key p s))
      with (SolverState.parameters (SolverState.store key p s)).
    rewrite find_store_same. reflexivity. }
  split; [|split; [|split]].
  - rewrite H. simpl. rewrite get_held. reflexivity.
  - rewrite getParameter_fst, H. simpl. rewrite get_held. reflexivity.
  - intros T' key' p Hne. apply getParameter_find.
    apply find_store_other. exact Hne.
  - intro p. repeat split; reflexivity.
Qed.

(** X2. [getParameter<T> (key)] throws [std::out_of_range] with the
    message ["key " + key + " not found"] exactly when [find] does not
    reach the key, and nothing else is ever thrown to its caller; on a
    state that has just been constructed this is the outcome for every key
    and every type; the message determines the key. *)
Theorem getParameter_throws_exactly_key_not_found T key s :
  (SolverState.getParameter_const T key s
   = Thrown (SolverState.key_not_found key)
   <-> StdMap.find key (SolverState.parameters s) = None)
  /\ (forall e, SolverState.getParameter_const T key s = Thrown e ->
        e = SolverState.key_not_found key)
  /\ (forall e, fst (SolverState.getParameter T key s) = Thrown e ->
        e = SolverState.key_not_found key)
  /\ (forall (garbage : nat -> value_type) (pb : problem_t),
        SolverState.getParameter_const T key
          (SolverState.SolverState garbage pb)
        = Thrown (SolverState.key_not_found key))
  /\ (forall key',
        SolverState.key_not_found key' = SolverState.key_not_found key ->
        key' = key).
Proof.
  assert (Hthrown : forall e,
             SolverState.getParameter_const T key s = Thrown e ->
             e = SolverState.key_not_found key
             /\ StdMap.find key (SolverState.parameters s) = None).
  { unfold SolverState.getParameter_const, SolverState.parameters.
    intros e.
    destruct (StdMap.find key (SolverState.parameters_ s)) as [it|]; simpl.
    - unfold Variant.get.
      destruct (bounded_type_eq_dec
                  (Variant.which (SolverState.value (snd it))) T);
        simpl; discriminate.
    - intro H. inversion H. split; reflexivity. }
  split; [|split; [|split; [|split]]].
  - split.
    + intro H. exact (proj2 (Hthrown _ H)).
    + apply getParameter_missing_key.
  - intros e H. exact (proj1 (Hthrown _ H)).
  - intros e H. rewrite getParameter_fst in H. exact (proj1 (Hthrown _ H)).
  - intros garbage pb. apply getParameter_missing_key. reflexivity.
  - intros key'. apply key_not_found_inj.
Qed.

(** X3. [getParameter<T> (key)] returns [c] exactly when [find] reaches,
    under that key, a parameter whose variant holds the [T] value [c]: the
    value returned is the stored one, never a default nor a converted
    one. *)
Theorem getParameter_returns_exactly_the_stored_value
  T key s (c : holds T) :
  SolverState.getParameter_const T key s = Returned c
  <-> exists k d,
        StdMap.find key (SolverState.parameters s)
        = Some (k, {| SolverState.description := d;
                      SolverState.value :=
                        {| Variant.which := T; Variant.content := c |} |}).
Proof.
  split.
  - unfold SolverState.getParameter_const, SolverState.parameters.
    destruct (StdMap.find key (SolverState.parameters_ s))
      as [[k [d [w v]]]|]; simpl; [|discriminate].
    unfold Variant.get. simpl.
    destruct (bounded_type_eq_dec w T) as [e|ne]; simpl; [|discriminate].
    subst w. simpl.
    intro H. inversion H. exists k, d. reflexivity.
  - intros (k & d & H). exact (getParameter_held _ _ H).
Qed.

End StoreAndGet.

(** *** The shape of what [SolverState::print] writes *)

Section PrintShape.
Context {V : Scalar} {B : BoundedTypes} {P : ProblemType}.
Implicit Types (s : SolverState.state) (o : ostream SolverState.printed).
Implicit Types (m : SolverState.parameters_t).

Lemma nesting_app (Q : Type) (a b : ostream Q) (level : nat) :
  Nesting.nesting level (a ++ b)
  = match Nesting.nesting level a with
    | Some l => Nesting.nesting l b
    | None => None
    end.
Proof.
  revert level. induction a as [|i a IH]; intro level; simpl; [reflexivity|].
  destruct i; try apply IH. destruct level; [reflexivity|apply IH].
Qed.

Lemma lines_app (Q : Type) (a b : ostream Q) :
  Nesting.lines (a ++ b) = Nesting.lines a + Nesting.lines b.
Proof.
  induction a as [|i a IH]; simpl; [reflexivity|].
  destruct i; simpl; rewrite IH; reflexivity.
Qed.

(** The lines of the parameters open and close no level, and there is one
    of them for each parameter. *)
Lemma nesting_parameters m (level : nat) :
  Nesting.nesting level (flat_map SolverState.parameter_items m) = Some level.
Proof.
  induction m as [|it m IH]; simpl; [reflexivity|exact IH].
Qed.

Lemma lines_parameters m :
  Nesting.lines (flat_map SolverState.parameter_items m) = length m.
Proof.
  induction m as [|it m IH]; simpl; [reflexivity|]. rewrite IH. reflexivity.
Qed.

(** What [print] appends, whatever the stream holds. *)
Lemma print_appends s o :
  SolverState.print s o = o ++ SolverState.print s [].
Proof.
  unfold SolverState.print, shl.
  destruct s as [xs c cv m]; simpl.
  destruct m as [|it m]; simpl.
  - destruct c, cv; simpl; repeat rewrite <- app_assoc; reflexivity.
  - rewrite !print_loop, !print_parameter_items.
    destruct c, cv; simpl; repeat rewrite <- app_assoc; reflexivity.
Qed.

(** X4. [print] only appends to the stream, and what it appends depends on
    the state alone: the items already there stay, in their place, and
    printing two states one after the other with [operator<<] appends what
    each of them prints on an empty stream. *)
Theorem print_only_appends s o :
  SolverState.print s o = o ++ SolverState.print s []
  /\ firstn (length o) (SolverState.print s o) = o
  /\ (forall s',
        SolverState.shl_state (SolverState.shl_state o s) s'
        = o ++ SolverState.print s [] ++ SolverState.print s' []).
Proof.
  split; [apply print_appends|]. split.
  - rewrite print_appends, firstn_app, Nat.sub_diag, firstn_all. simpl.
    apply app_nil_r.
  - intro s'. unfold SolverState.shl_state.
    rewrite (print_appends s' (SolverState.print s o)), (print_appends s o).
    rewrite <- app_assoc. reflexivity.
Qed.

(** X5. [print] closes every level of indentation that it opens, and never
    closes one that it did not open: at whatever level the stream is, the
    level is the same after the state has been printed. *)
Theorem print_restores_indentation s o (level l : nat) :
  Nesting.nesting level o = Some l ->
  Nesting.nesting level (SolverState.print s o) = Some l
  /\ Nesting.nesting l (SolverState.print s []) = Some l.
Proof.
  assert (H : forall n, Nesting.nesting n (SolverState.print s []) = Some n).
  { intro n. unfold SolverState.print, shl.
    destruct s as [xs c cv m]; simpl.
    destruct m as [|it m]; simpl.
    - destruct c, cv; reflexivity.
    - rewrite print_loop, print_parameter_items.
      destruct c, cv; simpl; repeat rewrite <- app_assoc; simpl;
        rewrite nesting_app, nesting_parameters; reflexivity. }
  intro Ho. split; [|apply H].
  rewrite print_appends, nesting_app, Ho. apply H.
Qed.

(** X6. [print] writes a heading, then one line for the iterate, one for
    the cost when there is one, one for the constraint violation when there
    is one and, when there are parameters, one line that announces them and
    one line for each of them. A state that has just been constructed prints
    the heading and its iterate of zeros, and nothing else. *)
Theorem print_line_count s (garbage : nat -> value_type) (pb : problem_t) :
  Nesting.lines (SolverState.print s [])
  = 1
    + match SolverState.cost s with
      | Some _ => 1
      | None => 0
      end
    + match SolverState.constraintViolation s with
      | Some _ => 1
      | None => 0
      end
    + (if StdMap.empty (SolverState.parameters s) then 0
       else 1 + length (SolverState.parameters s))
  /\ SolverState.print (SolverState.SolverState garbage pb) []
     = [Str "Solver state:"; Incindent; Iendl; Str "x: ";
        Put (SolverState.printed_vector (repeat zero (inputSize (function pb))));
        Decindent].
Proof.
  split.
  - unfold SolverState.print, SolverState.cost, SolverState.constraintViolation,
      SolverState.parameters, shl.
    destruct s as [xs c cv m]; simpl.
    destruct m as [|it m]; simpl.
    + destruct c, cv; reflexivity.
    + rewrite print_loop, print_parameter_items.
      destruct c, cv; simpl; repeat rewrite <- app_assoc; simpl;
        rewrite lines_app, lines_parameters; simpl; lia.
  - unfold SolverState.print, SolverState.SolverState, shl. simpl.
    rewrite setZero_repeat, length_resize. reflexivity.
Qed.

End PrintShape.

(** *** The functions of the tutorial: what their hessians hold *)

(** Names the coefficients of a buffer of four rows and four columns. *)
Ltac shape4 h H :=
  let Hl := fresh "Hl" in
  let Hf := fresh "Hf" in
  destruct H as [Hl Hf];
  repeat (destruct h as [|? h]; simpl in Hl; try discriminate Hl);
  repeat match goal with
    | Hf' : Forall _ (_ :: _) |- _ => inversion Hf'; clear Hf'; subst
    end;
  repeat match goal with
    | Hr : length ?r = 4 |- _ =>
        repeat (destruct r as [|? r]; simpl in Hr; try discriminate Hr);
        clear Hr
    end.

(** Case analysis on two indices of a matrix of four rows and columns, the
    indices outside it included. *)
Ltac indices4 i j :=
  destruct i as [|[|[|[|i]]]]; destruct j as [|[|[|[|j]]]];
  try reflexivity;
  try (destruct i; reflexivity);
  try (destruct j; reflexivity);
  try (destruct i; destruct j; reflexivity).

Section TutorialHessians.
Context {V : Scalar} {N : Numerals V}.
Implicit Types (h : matrix_t).

(** X7. [F::impl_hessian] fills a 4 x 4 buffer whatever it held before, and
    the matrix it leaves is symmetric except in one pair of coefficients:
    [h (2, 3)] is [x[1]] while [h (3, 2)] is [x[0]]. *)
Theorem F_hessian_symmetric_but_one_pair (x0 x1 x2 x3 : value_type) h :
  Tutorial.shaped 4 4 h ->
  exists H,
    Tutorial.F_impl_hessian h [x0; x1; x2; x3] = Some H
    /\ Tutorial.F_impl_hessian (zero_matrix 4 4) [x0; x1; x2; x3] = Some H
    /\ Tutorial.shaped 4 4 H
    /\ (forall i j, (i, j) <> (2, 3) -> (i, j) <> (3, 2) ->
          Tutorial.coeff2 H i j = Tutorial.coeff2 H j i)
    /\ Tutorial.coeff2 H 2 3 = Some x1
    /\ Tutorial.coeff2 H 3 2 = Some x0.
Proof.
  intro Hs. shape4 h Hs. eexists.
  split; [reflexivity|]. split; [reflexivity|].
  split; [split; [reflexivity|repeat constructor]|].
  split; [|split; reflexivity].
  intros i j H23 H32.
  indices4 i j; exfalso; first [apply H23; reflexivity|apply H32; reflexivity].
Qed.

(** X8. [G0::impl_hessian] and [G1::impl_hessian] fill a 4 x 4 buffer
    whatever it held before, and the matrices they leave are symmetric, for
    every argument. [G1]'s does not read its argument: it is 2 on the
    diagonal and 0 elsewhere for every vector, of any length. *)
Theorem constraint_hessians_are_symmetric (x0 x1 x2 x3 : value_type) h
  (x : vector_t) :
  Tutorial.shaped 4 4 h ->
  exists H0 H1,
    Tutorial.G0_impl_hessian h [x0; x1; x2; x3] = Some H0
    /\ Tutorial.G0_impl_hessian (zero_matrix 4 4) [x0; x1; x2; x3] = Some H0
    /\ Tutorial.G1_impl_hessian h x = Some H1
    /\ H1 = [[numeral 2; zero; zero; zero]; [zero; numeral 2; zero; zero];
             [zero; zero; numeral 2; zero]; [zero; zero; zero; numeral 2]]
    /\ (forall i j, Tutorial.coeff2 H0 i j = Tutorial.coeff2 H0 j i)
    /\ (forall i j, Tutorial.coeff2 H1 i j = Tutorial.coeff2 H1 j i).
Proof.
  intro Hs. shape4 h Hs. eexists _, _.
  split; [reflexivity|]. split; [reflexivity|].
  split; [reflexivity|]. split; [reflexivity|].
  split; intros i j; indices4 i j.
Qed.

(** X12. The [switch] that ends [run_test] returns 0 exactly for a
    [Result] or a [ResultWithWarnings] and 2 exactly for a [SolverError];
    for [NoSolution], which shares the case of [SolverError],
    [boost::get<SolverError>] throws [boost::bad_get] out of [run_test].
    The [assert (0)] after the [switch] is never reached, and what is
    written is appended to [std::cout]. *)
Theorem run_test_switch_outcomes (res : result_t)
  (cout : ostream Tutorial.written) :
  (which res = SOLVER_VALUE \/ which res = SOLVER_VALUE_WARNINGS
   <-> exists o, Tutorial.run_test_switch res cout = Returned (Some 0%Z, o))
  /\ (which res = SOLVER_ERROR
      <-> exists o, Tutorial.run_test_switch res cout = Returned (Some 2%Z, o))
  /\ (which res = SOLVER_NO_SOLUTION
      <-> Tutorial.run_test_switch res cout = Thrown boost_bad_get)
  /\ (forall v o, Tutorial.run_test_switch res cout = Returned (v, o) ->
        (v = Some 0%Z \/ v = Some 2%Z) /\ firstn (length cout) o = cout).
Proof.
  assert (Hpre : forall tail : ostream Tutorial.written,
             firstn (length cout) (cout ++ tail) = cout).
  { intro tail. rewrite firstn_app, Nat.sub_diag, firstn_all. simpl.
    apply app_nil_r. }
  unfold Tutorial.run_test_switch, shl.
  destruct res as [|r|r w|what]; simpl;
    (split; [|split; [|split]]);
    try (split; [intros [H|H]; try discriminate H; eauto
                |intros [o H]; try discriminate H; auto]);
    try (split; [intro H; try discriminate H; eauto
                |first [intros [o H]|intro H]; try discriminate H; auto]);
    try (intros v o H; inversion H; subst; split; [auto|];
         repeat rewrite <- app_assoc; apply Hpre).
  all: intros v o H; discriminate H.
Qed.

End TutorialHessians.

(** *** The functions of the tutorial as polynomials over the integers *)

(** Proves that one polynomial is, up to a multiple of [h * h], the first
    order term of another: the three members are evaluated and the
    quotient is 0, 1 or one of the coefficients. *)
Ltac first_order :=
  eexists _, _, _;
  split; [reflexivity|split; [reflexivity|split; [reflexivity|]]];
  cbn -[Z.mul Z.add Z.sub];
  first [ exists 0%Z; ring
        | exists 1%Z; ring
        | match goal with c : Z |- _ => exists c; ring end ].

(** Refutes it at the point (2, 1, 1, 1) with the step 2. *)
Ltac not_first_order :=
  let H := fresh "H" in
  let q := fresh "q" in
  intro H; destruct (H 2%Z 1%Z 1%Z 1%Z 2%Z) as (a & b & d & Ha & Hb & Hd & q & Hq);
  vm_compute in Ha, Hb, Hd;
  inversion Ha; inversion Hb; inversion Hd; subst; lia.

Section TutorialDerivatives.
Import Examples Tutorial.

(** X9. Over the integers, each coefficient that [G0::impl_gradient] writes
    is the partial derivative of what [G0::impl_compute] writes, and each
    coefficient that [G0::impl_hessian] writes is the partial derivative of
    the corresponding coefficient of the gradient. *)
Theorem G0_gradient_and_hessian_are_derivatives (i j : nat) :
  i < 4 -> j < 4 ->
  Tutorial.partial_derivative
    (Tutorial.value_at (V := Z_scalar) Tutorial.G0_impl_compute)
    (Tutorial.gradient_at (V := Z_scalar) Tutorial.G0_impl_gradient i) i
  /\ Tutorial.partial_derivative
       (Tutorial.gradient_at (V := Z_scalar) Tutorial.G0_impl_gradient i)
       (Tutorial.hessian_at (V := Z_scalar) Tutorial.G0_impl_hessian i j) j.
Proof.
  intros Hi Hj.
  destruct i as [|[|[|[|i]]]]; [ | | | |lia];
    (split; [intros x0 x1 x2 x3 h; first_order|]);
    (destruct j as [|[|[|[|j]]]]; [ | | | |lia]);
    intros x0 x1 x2 x3 h; first_order.
Qed.

(** X10. The same holds of [G1]: its gradient and its hessian are the
    first and the second derivatives of the sum of squares that
    [G1::impl_compute] writes. *)
Theorem G1_gradient_and_hessian_are_derivatives (i j : nat) :
  i < 4 -> j < 4 ->
  Tutorial.partial_derivative
    (Tutorial.value_at (V := Z_scalar) Tutorial.G1_impl_compute)
    (Tutorial.gradient_at (V := Z_scalar) Tutorial.G1_impl_gradient i) i
  /\ Tutorial.partial_derivative
       (Tutorial.gradient_at (V := Z_scalar) Tutorial.G1_impl_gradient i)
       (Tutorial.hessian_at (V := Z_scalar) Tutorial.G1_impl_hessian i j) j.
Proof.
  intros Hi Hj.
  destruct i as [|[|[|[|i]]]]; [ | | | |lia];
    (split; [intros x0 x1 x2 x3 h; first_order|]);
    (destruct j as [|[|[|[|j]]]]; [ | | | |lia]);
    intros x0 x1 x2 x3 h; first_order.
Qed.

(** X11. Over the integers, [F::impl_gradient] writes the partial
    derivatives of what [F::impl_compute] writes along the coordinates 0
    and 1 only. Along the coordinate 2 it writes the derivative plus 1,
    along the coordinate 3 the derivative minus 1: the gradient is that of
    [x[0] * x[3] * (x[0] + x[1] + x[2]) + x[2]], while [impl_compute] ends
    in [+ x[3]]. [F::impl_hessian] writes the partial derivatives of the
    coefficients of that gradient, except [h (2, 3)]. *)
Theorem F_gradient_is_not_the_gradient_of_F :
  (forall i, i < 2 ->
     Tutorial.partial_derivative
       (Tutorial.value_at (V := Z_scalar) Tutorial.F_impl_compute)
       (Tutorial.gradient_at (V := Z_scalar) Tutorial.F_impl_gradient i) i)
  /\ ~ Tutorial.partial_derivative
         (Tutorial.value_at (V := Z_scalar) Tutorial.F_impl_compute)
         (Tutorial.gradient_at (V := Z_scalar) Tutorial.F_impl_gradient 2) 2
  /\ ~ Tutorial.partial_derivative
         (Tutorial.value_at (V := Z_scalar) Tutorial.F_impl_compute)
         (Tutorial.gradient_at (V := Z_scalar) Tutorial.F_impl_gradient 3) 3
  /\ Tutorial.partial_derivative
       (Tutorial.value_at (V := Z_scalar) Tutorial.F_impl_compute)
       (fun x =>
          option_map (fun d => (d - 1)%Z)
            (Tutorial.gradient_at (V := Z_scalar) Tutorial.F_impl_gradient 2 x))
       2
  /\ Tutorial.partial_derivative
       (Tutorial.value_at (V := Z_scalar) Tutorial.F_impl_compute)
       (fun x =>
          option_map (fun d => (d + 1)%Z)
            (Tutorial.gradient_at (V := Z_scalar) Tutorial.F_impl_gradient 3 x))
       3
  /\ (forall i j, i < 4 -> j < 4 -> (i, j) <> (2, 3) ->
        Tutorial.partial_derivative
          (Tutorial.gradient_at (V := Z_scalar) Tutorial.F_impl_gradient i)
          (Tutorial.hessian_at (V := Z_scalar) Tutorial.F_impl_hessian i j) j)
  /\ ~ Tutorial.partial_derivative
         (Tutorial.gradient_at (V := Z_scalar) Tutorial.F_impl_gradient 2)
         (Tutorial.hessian_at (V := Z_scalar) Tutorial.F_impl_hessian 2 3) 3.
Proof.
  split; [|split; [|split; [|split; [|split; [|split]]]]].
  - intros i Hi. destruct i as [|[|i]]; [ | |lia];
      intros x0 x1 x2 x3 h; first_order.
  - not_first_order.
  - not_first_order.
  - intros x0 x1 x2 x3 h. first_order.
  - intros x0 x1 x2 x3 h. first_order.
  - intros i j Hi Hj Hne.
    destruct i as [|[|[|[|i]]]]; [ | | | |lia];
      (destruct j as [|[|[|[|j]]]]; [ | | | |lia]);
      try (exfalso; apply Hne; reflexivity);
      intros x0 x1 x2 x3 h; first_order.
  - not_first_order.
Qed.

End TutorialDerivatives.

(** *** The further properties at work *)

Section FurtherExamples.
Import Examples Tutorial.

(** A stream one level deep is one level deep after a state is printed. *)
Lemma print_restores_indentation_witness :
  Nesting.nesting 0 (SolverState.print status_then_iterations [Incindent])
  = Some 1.
Proof.
  exact (proj1 (print_restores_indentation
                  status_then_iterations [Incindent] 0 eq_refl)).
Defined.

(** The 4 x 4 buffer of zeros has the shape that the members ask for. *)
Lemma shaped_zero_matrix :
  Tutorial.shaped 4 4 (zero_matrix (V := Z_scalar) 4 4).
Proof. split; [reflexivity|repeat constructor]. Qed.

(** The hessian of [F] at the starting point (1, 5, 5, 1) of the tutorial:
    5 at (2, 3) and 1 at (3, 2). *)
Lemma F_hessian_witness :
  exists H,
    Tutorial.F_impl_hessian (zero_matrix 4 4) [1%Z; 5%Z; 5%Z; 1%Z] = Some H
    /\ Tutorial.coeff2 H 2 3 = Some 5%Z
    /\ Tutorial.coeff2 H 3 2 = Some 1%Z.
Proof.
  destruct (F_hessian_symmetric_but_one_pair (V := Z_scalar)
              1%Z 5%Z 5%Z 1%Z shaped_zero_matrix)
    as (H & H1 & _ & _ & _ & H23 & H32).
  exists H. split; [exact H1|]. split; [exact H23|exact H32].
Defined.

(** The hessians of [G0] and [G1] at the same point. *)
Lemma constraint_hessians_witness :
  exists H0 H1,
    Tutorial.G0_impl_hessian (zero_matrix 4 4) [1%Z; 5%Z; 5%Z; 1%Z] = Some H0
    /\ Tutorial.G1_impl_hessian (zero_matrix 4 4) [] = Some H1
    /\ Tutorial.coeff2 H0 0 3 = Tutorial.coeff2 H0 3 0
    /\ Tutorial.coeff2 H1 1 2 = Tutorial.coeff2 H1 2 1.
Proof.
  destruct (constraint_hessians_are_symmetric (V := Z_scalar)
              1%Z 5%Z 5%Z 1%Z [] shaped_zero_matrix)
    as (H0 & H1 & E0 & _ & E1 & _ & S0 & S1).
  exists H0, H1. split; [exact E0|]. split; [exact E1|].
  split; [apply S0|apply S1].
Defined.

(** The first coefficient of the gradient of [G0], and the coefficient
    (0, 3) of its hessian. *)
Lemma G0_derivatives_witness :
  Tutorial.partial_derivative
    (Tutorial.value_at (V := Z_scalar) Tutorial.G0_impl_compute)
    (Tutorial.gradient_at (V := Z_scalar) Tutorial.G0_impl_gradient 0) 0
  /\ Tutorial.partial_derivative
       (Tutorial.gradient_at (V := Z_scalar) Tutorial.G0_impl_gradient 0)
       (Tutorial.hessian_at (V := Z_scalar) Tutorial.G0_impl_hessian 0 3) 3.
Proof.
  apply (@G0_gradient_and_hessian_are_derivatives 0 3); lia.
Defined.

(** The second coefficient of the gradient of [G1], and the coefficient
    (1, 1) of its hessian. *)
Lemma G1_derivatives_witness :
  Tutorial.partial_derivative
    (Tutorial.value_at (V := Z_scalar) Tutorial.G1_impl_compute)
    (Tutorial.gradient_at (V := Z_scalar) Tutorial.G1_impl_gradient 1) 1
  /\ Tutorial.partial_derivative
       (Tutorial.gradient_at (V := Z_scalar) Tutorial.G1_impl_gradient 1)
       (Tutorial.hessian_at (V := Z_scalar) Tutorial.G1_impl_hessian 1 1) 1.
Proof.
  apply (@G1_gradient_and_hessian_are_derivatives 1 1); lia.
Defined.

(** The three functions at the starting point of the tutorial. *)
Example tutorial_at_starting_point :
  Tutorial.value_at (V := Z_scalar) Tutorial.F_impl_compute [1; 5; 5; 1]%Z
  = Some 12%Z
  /\ Tutorial.F_impl_gradient (V := Z_scalar) [0; 0; 0; 0]%Z [1; 5; 5; 1]%Z
     = Some [12; 1; 2; 11]%Z
  /\ Tutorial.value_at (V := Z_scalar) Tutorial.G0_impl_compute [1; 5; 5; 1]%Z
     = Some 25%Z
  /\ Tutorial.value_at (V := Z_scalar) Tutorial.G1_impl_compute [1; 5; 5; 1]%Z
     = Some 52%Z
  /\ Tutorial.value_at (V := Z_scalar) Tutorial.F_impl_compute [1; 5; 5]%Z
     = None.
Proof. repeat split; reflexivity. Qed.

(** The [switch] of [run_test] on the four kinds of result. *)
Example run_test_switch_on_each_result :
  Tutorial.run_test_switch (V := Z_scalar) NoSolution []
  = Thrown boost_bad_get
  /\ Tutorial.run_test_switch (V := Z_scalar)
       (SolverError_ "The dummy solver always fail.") []
     = Returned (Some 2%Z,
                 [Str "A solution should have been found. Failing...";
                  Put Tutorial.endl; Str "The dummy solver always fail.";
                  Put Tutorial.endl]).
Proof. split; reflexivity. Qed.

End FurtherExamples.

(** *** The keys that [print] lists *)

Section PrintedKeys.
Context {V : Scalar} {B : BoundedTypes} {P : ProblemType}.
Implicit Types (m : SolverState.parameters_t).
Implicit Types (kps : list (string * SolverState.StateParameter)).

(** The keys after [m[k] = v] are [k] and the keys of before. *)
Lemma in_keys_subscript_assign (T : Type) (k k' : string) (v : T)
  (m : StdMap.t T) :
  In k' (StdMap.keys (StdMap.subscript_assign k v m))
  <-> k' = k \/ In k' (StdMap.keys m).
Proof.
  induction m as [|[k1 v1] rest IH]; simpl.
  - intuition.
  - compare_keys k k1; simpl.
    + subst. intuition.
    + intuition.
    + rewrite IH. intuition.
Qed.

(** Keys in strictly ascending order are distinct. *)
Lemma ordered_NoDup (T : Type) (m : StdMap.t T) :
  StdMap.ordered m -> NoDup (StdMap.keys m).
Proof.
  unfold StdMap.ordered. intro Hs.
  apply Sorted_StronglySorted in Hs.
  - induction Hs as [|k l Hl IH Hall]; constructor; [|exact IH].
    intro Hin. rewrite Forall_forall in Hall.
    exact (lt_irrefl (Hall k Hin)).
  - intros a b c. apply String_as_OT.lt_trans.
Qed.

Lemma in_keys_store_all kps (s : SolverState.state) (k : string) :
  In k (StdMap.keys (SolverState.parameters (SolverState.store_all kps s)))
  <-> In k (map fst kps) \/ In k (StdMap.keys (SolverState.parameters s)).
Proof.
  revert s. induction kps as [|[k1 p1] kps IH]; intro s; simpl.
  - intuition.
  - rewrite IH, parameters_store, in_keys_subscript_assign. intuition.
Qed.

(** X13. After any sequence of stores into a state that has just been
    constructed, [print] lists exactly the keys that were stored, and each
    of them once, however many times it was stored. *)
Theorem print_lists_each_stored_key_once
  (garbage : nat -> value_type) (pb : problem_t) kps :
  NoDup
    (SolverState.parameter_lines
       (SolverState.print
          (SolverState.store_all kps (SolverState.SolverState garbage pb)) []))
  /\ (forall k,
        In k
          (SolverState.parameter_lines
             (SolverState.print
                (SolverState.store_all kps
                   (SolverState.SolverState garbage pb)) []))
        <-> In k (map fst kps))
  /\ length
       (SolverState.parameters
          (SolverState.store_all kps (SolverState.SolverState garbage pb)))
     <= length kps.
Proof.
  rewrite parameter_lines_print.
  assert (Hnd : NoDup
                  (StdMap.keys
                     (SolverState.parameters
                        (SolverState.store_all kps
                           (SolverState.SolverState garbage pb))))).
  { apply ordered_NoDup. apply ordered_store_all. apply ordered_empty_map. }
  assert (Hin : forall k,
             In k
               (StdMap.keys
                  (SolverState.parameters
                     (SolverState.store_all kps
                        (SolverState.SolverState garbage pb))))
             <-> In k (map fst kps)).
  { intro k. rewrite in_keys_store_all. simpl. intuition. }
  split; [exact Hnd|]. split; [exact Hin|].
  assert (Hlen : length
                   (StdMap.keys
                      (SolverState.parameters
                         (SolverState.store_all kps
                            (SolverState.SolverState garbage pb))))
                 <= length (map fst kps)).
  { apply NoDup_incl_length; [exact Hnd|].
    intros k Hk. apply Hin. exact Hk. }
  unfold StdMap.keys in Hlen. rewrite !length_map in Hlen. exact Hlen.
Qed.

End PrintedKeys.
